(** * Meteorological telegram service: sanitizer, query builder, ingestion

    A shallow embedding of [src/meteo_telegram/main.py] and the properties of
    its JSON sanitizer ([clean_data]), of the filter endpoint
    ([filter_telegrams]), of the update endpoint ([update_data_in_collection])
    and of the ingestion routine ([download_and_process_telegrams]). *)

From Stdlib Require Import ZArith List Bool String Ascii Lia.
From Stdlib Require Import Floats.SpecFloat.
Import ListNotations.
Local Open Scope string_scope.
Local Open Scope Z_scope.
Local Open Scope list_scope.

Set Implicit Arguments.
Set Warnings "-register-all".

(** ** Python values

    The values the service handles are the ones a BSON/JSON document holds:
    [None], booleans, integers, IEEE-754 doubles, strings, lists and
    dictionaries with string keys.  A double is a [spec_float] of the Standard
    Library (signed zero, signed infinity, NaN, or sign/mantissa/exponent).
    [VObjectId] stands for the [_id] the store attaches to each document.
    Strings are sequences of ASCII characters.

    A Python [dict] keeps its keys in insertion order and holds each key once:
    it is an association list, and [wf_value] is the "each key once"
    invariant. *)

Unset Elimination Schemes.
Inductive value : Type :=
| VNone
| VBool (b : bool)
| VInt (z : Z)
| VFloat (f : spec_float)
| VStr (s : string)
| VObjectId (n : N)
| VList (l : list value)
| VDict (d : list (string * value)).
Set Elimination Schemes.

Definition dict : Type := list (string * value).

Section ValueInduction.
Variable P : value -> Prop.
Hypothesis HNone : P VNone.
Hypothesis HBool : forall b, P (VBool b).
Hypothesis HInt : forall z, P (VInt z).
Hypothesis HFloat : forall f, P (VFloat f).
Hypothesis HStr : forall s, P (VStr s).
Hypothesis HObjectId : forall n, P (VObjectId n).
Hypothesis HList : forall l, Forall P l -> P (VList l).
Hypothesis HDict : forall d, Forall (fun kv => P (snd kv)) d -> P (VDict d).

Fixpoint value_ind (v : value) : P v :=
  match v with
  | VNone => HNone
  | VBool b => HBool b
  | VInt z => HInt z
  | VFloat f => HFloat f
  | VStr s => HStr s
  | VObjectId n => HObjectId n
  | VList l =>
      HList ((fix items (l : list value) : Forall P l :=
                match l with
                | [] => Forall_nil P
                | x :: r => Forall_cons x (value_ind x) (items r)
                end) l)
  | VDict d =>
      HDict ((fix entries (d : dict) : Forall (fun kv => P (snd kv)) d :=
                match d with
                | [] => Forall_nil _
                | kv :: r => Forall_cons kv (value_ind (snd kv)) (entries r)
                end) d)
  end.
End ValueInduction.

(** ** Dictionary operations *)

Definition keys (d : dict) : list string := map fst d.

(** [d[k]] as an expression; [None] is Python's [KeyError]. *)
Fixpoint dict_get (k : string) (d : dict) : option value :=
  match d with
  | [] => None
  | (k', v) :: r => if String.eqb k k' then Some v else dict_get k r
  end.

(** [d[k] = v]: an existing key keeps its place, a new key goes last. *)
Fixpoint dict_setitem (k : string) (v : value) (d : dict) : dict :=
  match d with
  | [] => [(k, v)]
  | (k', v') :: r =>
      if String.eqb k k' then (k, v) :: r else (k', v') :: dict_setitem k v r
  end.

(** [d.pop(k, None)], the dictionary afterwards. *)
Fixpoint dict_pop (k : string) (d : dict) : dict :=
  match d with
  | [] => []
  | (k', v') :: r =>
      if String.eqb k k' then r else (k', v') :: dict_pop k r
  end.

Fixpoint unique_keys (ks : list string) : bool :=
  match ks with
  | [] => true
  | k :: r => negb (existsb (String.eqb k) r) && unique_keys r
  end.

Fixpoint wf_value (v : value) : bool :=
  match v with
  | VList l => forallb wf_value l
  | VDict d => unique_keys (map fst d) && forallb (fun kv => wf_value (snd kv)) d
  | _ => true
  end.

Definition wf_dict (d : dict) : bool := wf_value (VDict d).

(** ** The sanitizer: [clean_data]

    [float("inf")] and [float("-inf")] are the two infinities; [==] and [!=]
    on doubles are the IEEE comparisons [SFeqb]. *)

Definition float_inf : spec_float := S754_infinity false.
Definition float_neg_inf : spec_float := S754_infinity true.

(** The test of the third branch:
    [data == float("inf") or data == float("-inf") or data != data]. *)
Definition not_json_float (f : spec_float) : bool :=
  SFeqb f float_inf || SFeqb f float_neg_inf || negb (SFeqb f f).

(** The loop [for key, value in items: data[key] = g(value)], on the
    dictionary [data]. *)
Definition assign_each (g : value -> value) (items data : dict) : dict :=
  fold_left (fun (acc : dict) (kv : string * value) =>
               dict_setitem (fst kv) (g (snd kv)) acc) items data.

(** The [dict] branch runs that loop over the items of [data] itself (the
    dictionary is updated in place and returned); the [list] branch builds a
    new list; a value that is neither a [dict], a [list] nor a [float] is
    returned as it is. *)
Fixpoint clean_data (data : value) : value :=
  match data with
  | VDict d => VDict (assign_each clean_data d d)
  | VList l => VList (map clean_data l)
  | VFloat f => if not_json_float f then VNone else VFloat f
  | _ => data
  end.

(** *** What the specification asks of the sanitizer

    [Sanitized v v'] follows the contract of the specification: [v'] has the
    shape of [v], a double that is an infinity or NaN has become [None], every
    other leaf is the same; lists are related element by element and
    dictionaries entry by entry, same keys in the same order. *)

Definition is_inf_or_nan (f : spec_float) : bool :=
  match f with
  | S754_infinity _ | S754_nan => true
  | S754_zero _ | S754_finite _ _ _ => false
  end.

Inductive Sanitized : value -> value -> Prop :=
| San_float_null f : is_inf_or_nan f = true -> Sanitized (VFloat f) VNone
| San_float_keep f : is_inf_or_nan f = false -> Sanitized (VFloat f) (VFloat f)
| San_none : Sanitized VNone VNone
| San_bool b : Sanitized (VBool b) (VBool b)
| San_int z : Sanitized (VInt z) (VInt z)
| San_str s : Sanitized (VStr s) (VStr s)
| San_object_id n : Sanitized (VObjectId n) (VObjectId n)
| San_list l l' : Forall2 Sanitized l l' -> Sanitized (VList l) (VList l')
| San_dict d d' :
    Forall2 (fun kv kv' => fst kv = fst kv' /\ Sanitized (snd kv) (snd kv')) d d' ->
    Sanitized (VDict d) (VDict d').


(** The entry-by-entry image of a dictionary: same keys, same order. *)
Definition map_values (g : value -> value) (d : dict) : dict :=
  map (fun kv => (fst kv, g (snd kv))) d.

(** ** Exceptions

    A call either returns or raises.  [ValueError] is what [int] raises on a
    string that is not a number, [KeyError] what [d[k]] raises on a missing
    key.  Three errors come from the driver of the store and from the
    response classes before anything reaches the store or the client:
    [InvalidName] is what [db[name]] raises when [name] is not a collection
    name, [OverflowError] what the driver raises for an integer that does not
    fit in 64 bits, and [TypeError] what [JSONResponse] raises for a value
    JSON has no form for.  [StoreError] stands for any other error of the
    document store (unreachable server, rejected operation) and
    [ProcessorError] for a failure of the telegram processor. *)

Inductive exn : Type :=
| ValueError
| KeyError (k : string)
| TypeError
| OverflowError
| InvalidName (name : string)
| StoreError (msg : string)
| ProcessorError (msg : string).

Inductive exc (A : Type) : Type :=
| Ok (a : A)
| Raise (e : exn).
Arguments Ok {A} a.
Arguments Raise {A} e.

Definition bind (A B : Type) (m : exc A) (k : A -> exc B) : exc B :=
  match m with
  | Ok a => k a
  | Raise e => Raise e
  end.

Notation "x <- m ;; k" := (bind m (fun x => k))
  (at level 61, m at next level, right associativity).

(** ** Python truth values, strings and [int] *)

(** [bool(v)], as used by [if v] and [not v]. *)
Definition truthy (v : value) : bool :=
  match v with
  | VNone => false
  | VBool b => b
  | VInt z => negb (z =? 0)
  | VFloat f => match f with S754_zero _ => false | _ => true end
  | VStr s => negb (s =? "")%string
  | VObjectId _ => true
  | VList l => match l with [] => false | _ => true end
  | VDict d => match d with [] => false | _ => true end
  end.

(** [s[i:j]] for [0 <= i <= j]: the characters from [i] up to [j], fewer when
    the string ends before. *)
Definition py_slice (i j : nat) (s : string) : string :=
  substring i (j - i) s.

(** The characters [int] skips at both ends of an ASCII string: space and
    the control characters tab, line feed, vertical tab, form feed and
    carriage return. *)
Definition is_space (c : ascii) : bool :=
  let n := nat_of_ascii c in
  ((9 <=? n) && (n <=? 13) || (n =? 32))%nat.

Definition is_digit (c : ascii) : bool :=
  let n := nat_of_ascii c in ((48 <=? n) && (n <=? 57))%nat.

Definition digit_value (c : ascii) : Z := Z.of_nat (nat_of_ascii c) - 48.

Fixpoint lstrip (s : string) : string :=
  match s with
  | String c r => if is_space c then lstrip r else s
  | EmptyString => s
  end.

Fixpoint all_space (s : string) : bool :=
  match s with
  | String c r => is_space c && all_space r
  | EmptyString => true
  end.

(** The digits of a decimal literal after its first digit, whose value so far
    is [acc]: digits, each possibly preceded by one underscore.  The result is
    the value and what follows the literal; an underscore that no digit
    follows is an error. *)
Fixpoint int_digits (acc : Z) (s : string) : option (Z * string) :=
  match s with
  | EmptyString => Some (acc, s)
  | String c r =>
      if is_digit c then int_digits (10 * acc + digit_value c) r
      else if Ascii.eqb c "_" then
        match r with
        | String c' r' =>
            if is_digit c' then int_digits (10 * acc + digit_value c') r'
            else None
        | EmptyString => None
        end
      else Some (acc, s)
  end.

Definition int_unsigned (s : string) : option Z :=
  match s with
  | String c r =>
      if is_digit c then
        match int_digits (digit_value c) r with
        | Some (n, rest) => if all_space rest then Some n else None
        | None => None
        end
      else None
  | EmptyString => None
  end.

(** [int(s)] in base ten for an ASCII string: optional white space, an
    optional sign, a decimal literal, optional white space; anything else
    raises [ValueError]. *)
Definition py_int (s : string) : exc Z :=
  let signed :=
    match lstrip s with
    | String c r =>
        if Ascii.eqb c "+" then int_unsigned r
        else if Ascii.eqb c "-" then option_map Z.opp (int_unsigned r)
        else int_unsigned (String c r)
    | EmptyString => None
    end in
  match signed with
  | Some n => Ok n
  | None => Raise ValueError
  end.

(** [int] and [len] are modelled for ASCII strings: outside them [len]
    counts characters where [String.length] counts bytes, and [int] reads
    other digits and other white space.  [is_ascii] holds of the strings
    made of the characters 0 to 127. *)
Fixpoint is_ascii (s : string) : bool :=
  match s with
  | EmptyString => true
  | String c r => (nat_of_ascii c <? 128)%nat && is_ascii r
  end.

(** ** The filter criteria: [TelegramFilter]

    Every field of the model is optional and defaults to [None]. *)

Record TelegramFilter : Type := {
  country_code : option string;
  station_id : option string;
  date : option string;
  date_start : option string;
  date_end : option string;
  hour : option Z;
  temperature : option spec_float;
  dew_point_temperature : option spec_float;
  relative_humidity : option spec_float;
  wind_dir : option spec_float;
  wind_speed : option spec_float;
  pressure : option spec_float;
  sea_level_pressure : option spec_float;
  maximum_temperature : option spec_float;
  minimum_temperature : option spec_float;
  precipitation_s1 : option spec_float;
  precipitation_s3 : option spec_float;
  pressure_tendency : option spec_float;
  present_weather : option string;
  past_weather_1 : option string;
  past_weather_2 : option string;
  sunshine : option spec_float;
  ground_state_snow : option string;
  ground_state : option string;
  fields_to_return : option (list string)
}.

(** The filter with every field unset. *)
Definition empty_filter : TelegramFilter :=
  Build_TelegramFilter None None None None None None None None None None
    None None None None None None None None None None None None None None None.

(** [if x] on an optional string: set and not empty. *)
Definition given (o : option string) : bool :=
  match o with
  | Some s => truthy (VStr s)
  | None => false
  end.

(** The filter [f] with its [station_id] replaced. *)
Definition with_station_id (o : option string) (f : TelegramFilter)
  : TelegramFilter :=
  {| country_code := country_code f; station_id := o; date := date f;
     date_start := date_start f; date_end := date_end f; hour := hour f;
     temperature := temperature f;
     dew_point_temperature := dew_point_temperature f;
     relative_humidity := relative_humidity f; wind_dir := wind_dir f;
     wind_speed := wind_speed f; pressure := pressure f;
     sea_level_pressure := sea_level_pressure f;
     maximum_temperature := maximum_temperature f;
     minimum_temperature := minimum_temperature f;
     precipitation_s1 := precipitation_s1 f;
     precipitation_s3 := precipitation_s3 f;
     pressure_tendency := pressure_tendency f;
     present_weather := present_weather f;
     past_weather_1 := past_weather_1 f; past_weather_2 := past_weather_2 f;
     sunshine := sunshine f; ground_state_snow := ground_state_snow f;
     ground_state := ground_state f;
     fields_to_return := fields_to_return f |}.

(** The filter [f] with its [date] replaced. *)
Definition with_date (o : option string) (f : TelegramFilter)
  : TelegramFilter :=
  {| country_code := country_code f; station_id := station_id f; date := o;
     date_start := date_start f; date_end := date_end f; hour := hour f;
     temperature := temperature f;
     dew_point_temperature := dew_point_temperature f;
     relative_humidity := relative_humidity f; wind_dir := wind_dir f;
     wind_speed := wind_speed f; pressure := pressure f;
     sea_level_pressure := sea_level_pressure f;
     maximum_temperature := maximum_temperature f;
     minimum_temperature := minimum_temperature f;
     precipitation_s1 := precipitation_s1 f;
     precipitation_s3 := precipitation_s3 f;
     pressure_tendency := pressure_tendency f;
     present_weather := present_weather f;
     past_weather_1 := past_weather_1 f; past_weather_2 := past_weather_2 f;
     sunshine := sunshine f; ground_state_snow := ground_state_snow f;
     ground_state := ground_state f;
     fields_to_return := fields_to_return f |}.

(** The filter [f] with its [hour] replaced. *)
Definition with_hour (o : option Z) (f : TelegramFilter) : TelegramFilter :=
  {| country_code := country_code f; station_id := station_id f;
     date := date f; date_start := date_start f; date_end := date_end f;
     hour := o; temperature := temperature f;
     dew_point_temperature := dew_point_temperature f;
     relative_humidity := relative_humidity f; wind_dir := wind_dir f;
     wind_speed := wind_speed f; pressure := pressure f;
     sea_level_pressure := sea_level_pressure f;
     maximum_temperature := maximum_temperature f;
     minimum_temperature := minimum_temperature f;
     precipitation_s1 := precipitation_s1 f;
     precipitation_s3 := precipitation_s3 f;
     pressure_tendency := pressure_tendency f;
     present_weather := present_weather f;
     past_weather_1 := past_weather_1 f; past_weather_2 := past_weather_2 f;
     sunshine := sunshine f; ground_state_snow := ground_state_snow f;
     ground_state := ground_state f;
     fields_to_return := fields_to_return f |}.

(** ** The document store, as [filter_telegrams] uses it

    [db.list_collection_names()] and [db[name].find(query, projection)]; both
    may raise.  What a store answers is left open here: the properties of the
    query builder hold for every store. *)

Record Database : Type := {
  list_collection_names : exc (list string);
  find : string -> dict -> dict -> exc (list dict)
}.

(** One call [db[name].find(query, projection)]. *)
Record find_call : Type := {
  call_collection : string;
  call_query : dict;
  call_projection : dict
}.

(** ** Collection names

    [db[name]] builds the handle of a collection and asks nothing of the
    store.  The driver raises [InvalidName] unless [name] is a collection
    name: not empty, without two dots in a row, without [$] (the names of the
    oplog and of the commands apart), neither starting nor ending with a dot,
    and without the null character. *)

Fixpoint has_char (c : ascii) (s : string) : bool :=
  match s with
  | EmptyString => false
  | String c' r => Ascii.eqb c c' || has_char c r
  end.

Fixpoint has_two_dots (s : string) : bool :=
  match s with
  | EmptyString => false
  | String c r =>
      match r with
      | String c' _ => Ascii.eqb c "." && Ascii.eqb c' "." || has_two_dots r
      | EmptyString => false
      end
  end.

Definition starts_with_dot (s : string) : bool :=
  match s with
  | String c _ => Ascii.eqb c "."
  | EmptyString => false
  end.

Fixpoint ends_with_dot (s : string) : bool :=
  match s with
  | EmptyString => false
  | String c r =>
      match r with
      | EmptyString => Ascii.eqb c "."
      | String _ _ => ends_with_dot r
      end
  end.

Definition valid_collection_name (name : string) : bool :=
  negb (name =? "")%string
  && negb (has_two_dots name)
  && (negb (has_char "$" name)
      || String.prefix "oplog.$main" name || String.prefix "$cmd" name)
  && negb (starts_with_dot name)
  && negb (ends_with_dot name)
  && negb (has_char "000" name).

(** ** The filter endpoint: [filter_telegrams] *)

(** [[filter.country_code] if filter.country_code else
    db.list_collection_names()]. *)
Definition collections_to_query (db : Database) (f : TelegramFilter)
  : exc (list string) :=
  match country_code f with
  | Some c => if truthy (VStr c) then Ok [c] else list_collection_names db
  | None => list_collection_names db
  end.

(** The three conversions of the [try] block, in order. *)
Definition date_fields (d : string) : exc (Z * Z * Z) :=
  year <- py_int (py_slice 0 4 d) ;;
  month <- py_int (py_slice 4 6 d) ;;
  day <- py_int (py_slice 6 8 d) ;;
  Ok (year, month, day).

(** The query of one turn of the loop.  [None] is the [continue] of the
    [except ValueError] clause: the turn ends there and nothing is asked of
    the collection. *)
Definition build_query (f : TelegramFilter) : option dict :=
  let query : dict := [] in
  let query :=
    match station_id f with
    | Some s =>
        if truthy (VStr s) then dict_setitem "data.station_id" (VStr s) query
        else query
    | None => query
    end in
  let dated : option dict :=
    match date f with
    | Some d =>
        if truthy (VStr d) && (8 <=? String.length d)%nat then
          match date_fields d with
          | Ok (year, month, day) =>
              let query := dict_setitem "data.year" (VInt year) query in
              let query := dict_setitem "data.month" (VInt month) query in
              let query := dict_setitem "data.day" (VInt day) query in
              Some query
          | Raise _ => None
          end
        else Some query
    | None => Some query
    end in
  match dated with
  | Some query =>
      Some match hour f with
           | Some h => dict_setitem "data.hour" (VInt h) query
           | None => query
           end
  | None => None
  end.

Definition build_projection (f : TelegramFilter) : dict :=
  let projection : dict := [("_id", VBool false)] in
  match fields_to_return f with
  | Some ((_ :: _) as fields) =>
      fold_left (fun (projection : dict) (field : string) =>
                   dict_setitem ("data." ++ field) (VBool true) projection)
                fields projection
  | _ => projection
  end.

(** The loop over [collections_to_query]: [results] and the calls made so
    far are threaded through; an error ends the request.  Each turn starts
    with [collection = db[collection_name]].  When the turn goes on to ask
    the store, [find] stands for [db[collection_name].find(query,
    projection)], the handle included; when the turn is skipped, the handle
    is all that was asked for, and a name that is not a collection name
    raises [InvalidName] there.  The diagnostic [print]s of the loop are left
    out. *)
Fixpoint query_collections (db : Database) (f : TelegramFilter)
    (names : list string) (results : list dict) (calls : list find_call)
  : list find_call * exc (list dict) :=
  match names with
  | [] => (calls, Ok results)
  | collection_name :: rest =>
      match build_query f with
      | None =>
          if valid_collection_name collection_name
          then query_collections db f rest results calls
          else (calls, Raise (InvalidName collection_name))
      | Some query =>
          let projection := build_projection f in
          let calls := calls ++ [Build_find_call collection_name query projection] in
          match find db collection_name query projection with
          | Ok collection_results =>
              query_collections db f rest (results ++ collection_results) calls
          | Raise e => (calls, Raise e)
          end
      end
  end.

Definition no_data_found : value :=
  VDict [("message", VStr "No data found for the given filters")].

(** The endpoint: the calls it made to the store and its answer. *)
Definition filter_telegrams (db : Database) (f : TelegramFilter)
  : list find_call * exc value :=
  match collections_to_query db f with
  | Raise e => ([], Raise e)
  | Ok names =>
      match query_collections db f names [] [] with
      | (calls, Raise e) => (calls, Raise e)
      | (calls, Ok results) =>
          let cleaned_results := clean_data (VList (map VDict results)) in
          if negb (truthy cleaned_results) then (calls, Ok no_data_found)
          else (calls, Ok (VDict [("results", cleaned_results)]))
      end
  end.

(** ** A model of the document store

    The store is MongoDB, reached through its Python driver.  [Mongo] models
    the part of its documented behaviour the endpoints rely on: equality
    queries on dotted field paths, inclusion projections, and [update_one]
    with [$set].  A request outside that part (a field path with an empty
    component or one that starts with [$], two paths of which one extends the
    other, an update through an array) is answered by [StoreError].

    Every operation is asked of a handle [db[name]], so a name that is not
    a collection name raises [InvalidName]; and the driver writes the
    documents of a request in BSON before it sends them, which raises for an
    integer outside 64 bits and for a key with the null character. *)

Module Mongo.

(** *** What the driver can write *)

Definition int64 (z : Z) : bool := (- 2 ^ 63 <=? z) && (z <? 2 ^ 63).

Section FirstError.
Variable A : Type.
Variable g : A -> option exn.

(** The first error [g] finds in a list, if any. *)
Fixpoint first_error (l : list A) : option exn :=
  match l with
  | [] => None
  | x :: r =>
      match g x with
      | Some e => Some e
      | None => first_error r
      end
  end.
End FirstError.

(** What writing a value in BSON raises, if anything: the first error met,
    the key of an entry before its value. *)
Fixpoint encode_error (v : value) : option exn :=
  match v with
  | VInt z => if int64 z then None else Some OverflowError
  | VList l => first_error encode_error l
  | VDict d =>
      first_error (fun kv : string * value =>
                     if has_char "000" (fst kv)
                     then Some (StoreError "key with the null character")
                     else encode_error (snd kv)) d
  | _ => None
  end.

(** The documents of one request, in the order they are written. *)
Definition request_error (docs : list dict) : option exn :=
  first_error (fun d => encode_error (VDict d)) docs.

(** The collections by name, each with its documents in store order. *)
Definition state : Type := list (string * list dict).

Definition collection_names (st : state) : list string := map fst st.

Fixpoint documents (st : state) (name : string) : list dict :=
  match st with
  | [] => []
  | (n, docs) :: r => if String.eqb name n then docs else documents r name
  end.

Fixpoint set_documents (st : state) (name : string) (docs : list dict)
  : state :=
  match st with
  | [] => [(name, docs)]
  | (n, ds) :: r =>
      if String.eqb name n then (n, docs) :: r
      else (n, ds) :: set_documents r name docs
  end.

(** *** Field paths *)

Definition path : Type := list string.

(** ["a.b.c"] is the path [a], [b], [c]. *)
Fixpoint split_dots (s : string) : path :=
  match s with
  | EmptyString => [EmptyString]
  | String c r =>
      if Ascii.eqb c "." then EmptyString :: split_dots r
      else match split_dots r with
           | h :: t => String c h :: t
           | [] => [String c EmptyString]
           end
  end.

Definition plain_name (s : string) : bool :=
  match s with
  | EmptyString => false
  | String c _ => negb (Ascii.eqb c "$")
  end.

Definition valid_path (p : path) : bool := forallb plain_name p.

Fixpoint is_prefix (p q : path) : bool :=
  match p, q with
  | [], _ => true
  | a :: p', b :: q' => String.eqb a b && is_prefix p' q'
  | _ :: _, [] => false
  end.

Definition collide (p q : path) : bool := is_prefix p q || is_prefix q p.

Fixpoint no_collision (ps : list path) : bool :=
  match ps with
  | [] => true
  | p :: r => forallb (fun q => negb (collide p q)) r && no_collision r
  end.

(** *** Equality of stored values *)

Definition float_same (a b : spec_float) : bool :=
  match a, b with
  | S754_zero s1, S754_zero s2 => Bool.eqb s1 s2
  | S754_infinity s1, S754_infinity s2 => Bool.eqb s1 s2
  | S754_nan, S754_nan => true
  | S754_finite s1 m1 e1, S754_finite s2 m2 e2 =>
      Bool.eqb s1 s2 && Pos.eqb m1 m2 && Z.eqb e1 e2
  | _, _ => false
  end.

Fixpoint list_eqb (A : Type) (eq : A -> A -> bool) (l1 l2 : list A) : bool :=
  match l1, l2 with
  | [], [] => true
  | x :: r1, y :: r2 => eq x y && list_eqb eq r1 r2
  | _, _ => false
  end.

(** The same value, field by field and in the same order. *)
Fixpoint value_eqb (a b : value) : bool :=
  match a, b with
  | VNone, VNone => true
  | VBool x, VBool y => Bool.eqb x y
  | VInt x, VInt y => Z.eqb x y
  | VFloat x, VFloat y => float_same x y
  | VStr x, VStr y => String.eqb x y
  | VObjectId x, VObjectId y => N.eqb x y
  | VList l1, VList l2 => list_eqb (fun x y => value_eqb x y) l1 l2
  | VDict d1, VDict d2 =>
      list_eqb (fun kv1 kv2 =>
                  String.eqb (fst kv1) (fst kv2)
                  && value_eqb (snd kv1) (snd kv2)) d1 d2
  | _, _ => false
  end.

(** An integer and a double are equal in a query when they are the same
    number. *)
Definition int_is_float (z : Z) (f : spec_float) : bool :=
  match f with
  | S754_zero _ => z =? 0
  | S754_finite s m e =>
      let n := if s then Z.opp (Zpos m) else Zpos m in
      if 0 <=? e then z =? n * 2 ^ e else z * 2 ^ (- e) =? n
  | _ => false
  end.

Definition query_eq (q stored : value) : bool :=
  value_eqb q stored
  || match q, stored with
     | VInt z, VFloat f | VFloat f, VInt z => int_is_float z f
     | _, _ => false
     end.

(** A stored array matches when it is the queried value or holds it. *)
Definition leaf_matches (q stored : value) : bool :=
  query_eq q stored
  || match stored with
     | VList l => existsb (query_eq q) l
     | _ => false
     end.

(** [{path: q}] on a document: the path is followed through embedded
    documents and through the documents of an array; a missing field matches
    only [None]. *)
Fixpoint path_matches (p : path) (q : value) (v : value) : bool :=
  match p with
  | [] => leaf_matches q v
  | k :: rest =>
      let in_document (d : dict) : bool :=
        match dict_get k d with
        | Some v' => path_matches rest q v'
        | None => value_eqb q VNone
        end in
      match v with
      | VDict d => in_document d
      | VList l =>
          existsb (fun e => match e with
                            | VDict d => in_document d
                            | _ => false
                            end) l
      | _ => value_eqb q VNone
      end
  end.

(** A query document is the conjunction of its entries. *)
Definition matches (query : dict) (doc : dict) : bool :=
  forallb (fun kv => path_matches (split_dots (fst kv)) (snd kv) (VDict doc))
          query.

(** *** Projections *)

(** The rests of the paths that start with [k]. *)
Definition tails_of (k : string) (ps : list path) : list path :=
  flat_map (fun p => match p with
                     | h :: t => if String.eqb h k then [t] else []
                     | [] => []
                     end) ps.

Definition is_nil (p : path) : bool :=
  match p with [] => true | _ => false end.

(** An inclusion projection keeps, in stored order, the fields some path
    names; below a field it keeps what the rests of the paths name; in an
    array it keeps the projected documents and arrays and drops the other
    elements. *)
Fixpoint project (ps : list path) (v : value) : option value :=
  match v with
  | VDict d =>
      Some (VDict
        (flat_map (fun kv : string * value =>
           match tails_of (fst kv) ps with
           | [] => []
           | tails =>
               if existsb is_nil tails then [kv]
               else match project tails (snd kv) with
                    | Some v' => [(fst kv, v')]
                    | None => []
                    end
           end) d))
  | VList l =>
      Some (VList
        (flat_map (fun e => match project ps e with
                            | Some e' => [e']
                            | None => []
                            end) l))
  | _ => None
  end.

Definition project_document (ps : list path) (doc : dict) : dict :=
  match project ps (VDict doc) with
  | Some (VDict d) => d
  | _ => doc
  end.

(** A projection document as [find] reads it: whether [_id] is left out, and
    the included paths. *)
Fixpoint read_projection (projection : dict) : exc (bool * list path) :=
  match projection with
  | [] => Ok (false, [])
  | (k, v) :: r =>
      rest <- read_projection r ;;
      match v with
      | VBool false =>
          if String.eqb k "_id" then Ok (true, snd rest)
          else Raise (StoreError "exclusion of a field other than _id")
      | VBool true =>
          if String.eqb k "_id" then Ok (false, snd rest)
          else Ok (fst rest, split_dots k :: snd rest)
      | _ => Raise (StoreError "projection value is not a boolean")
      end
  end.

(** What a projection document does to each document found. *)
Definition projector (projection : dict) : exc (dict -> dict) :=
  spec <- read_projection projection ;;
  let (without_id, ps) := spec in
  match ps with
  | [] => Ok (fun doc => if without_id then dict_pop "_id" doc else doc)
  | _ =>
      if forallb valid_path ps && no_collision ps then
        Ok (project_document (if without_id then ps else ["_id"] :: ps))
      else Raise (StoreError "invalid projection path")
  end.

(** [db[name].find(query, projection)], read to the end. *)
Definition find_documents (st : state) (name : string)
    (query projection : dict) : exc (list dict) :=
  if valid_collection_name name then
    match request_error [query; projection] with
    | Some e => Raise e
    | None =>
        if forallb (fun kv => valid_path (split_dots (fst kv))) query then
          proj <- projector projection ;;
          Ok (map proj (filter (matches query) (documents st name)))
        else Raise (StoreError "invalid query path")
    end
  else Raise (InvalidName name).

(** The store as the filter endpoint sees it. *)
Definition db (st : state) : Database :=
  {| list_collection_names := Ok (collection_names st);
     find := find_documents st |}.

(** *** [update_one] with [$set] *)

(** The embedded documents [$set] creates for a path that does not exist
    yet. *)
Fixpoint fresh (p : path) (v : value) : value :=
  match p with
  | [] => v
  | k :: rest => VDict [(k, fresh rest v)]
  end.

(** [{"$set": {path: v}}] on a document: an existing field is replaced in
    its place, a new one is added last. *)
Fixpoint set_path (p : path) (v : value) (doc : dict) : exc dict :=
  match p with
  | [] => Raise (StoreError "empty update path")
  | [k] => Ok (dict_setitem k v doc)
  | k :: rest =>
      match dict_get k doc with
      | None => Ok (dict_setitem k (fresh rest v) doc)
      | Some (VDict d) =>
          d' <- set_path rest v d ;; Ok (dict_setitem k (VDict d') doc)
      | Some (VList _) => Raise (StoreError "update through an array")
      | Some _ => Raise (StoreError "cannot create field in element")
      end
  end.

Fixpoint set_fields (fields : dict) (doc : dict) : exc dict :=
  match fields with
  | [] => Ok doc
  | (k, v) :: r => doc' <- set_path (split_dots k) v doc ;; set_fields r doc'
  end.

(** The update document [{"$set": fields}]. *)
Definition read_update (update : dict) : exc dict :=
  match update with
  | [(op, VDict fields)] =>
      if String.eqb op "$set" then
        let ps := map (fun kv => split_dots (fst kv)) fields in
        if forallb valid_path ps && no_collision ps then Ok fields
        else Raise (StoreError "invalid update path")
      else Raise (StoreError "update operator other than $set")
  | _ => Raise (StoreError "update operator other than $set")
  end.

(** The result of [update_one]: how many documents the filter matched and
    how many the update changed.  A matched document that the update leaves
    as it was is not counted as modified. *)
Record UpdateResult : Type := {
  matched_count : Z;
  modified_count : Z
}.

(** The first document the filter matches is updated, the others are kept;
    [None] when no document matches. *)
Fixpoint update_first (filter : dict) (fields : dict) (docs : list dict)
  : exc (option (list dict * bool)) :=
  match docs with
  | [] => Ok None
  | doc :: r =>
      if matches filter doc then
        doc' <- set_fields fields doc ;;
        Ok (Some (doc' :: r, negb (value_eqb (VDict doc') (VDict doc))))
      else
        found <- update_first filter fields r ;;
        Ok (option_map (fun x => (doc :: fst x, snd x)) found)
  end.

(** What the store does with an update it has received. *)
Definition apply_update (st : state) (name : string) (filter update : dict)
  : state * exc UpdateResult :=
  match read_update update with
  | Raise e => (st, Raise e)
  | Ok fields =>
      if forallb (fun kv => valid_path (split_dots (fst kv))) filter then
        match update_first filter fields (documents st name) with
        | Raise e => (st, Raise e)
        | Ok None => (st, Ok {| matched_count := 0; modified_count := 0 |})
        | Ok (Some (docs, changed)) =>
            if changed then
              (set_documents st name docs,
               Ok {| matched_count := 1; modified_count := 1 |})
            else (st, Ok {| matched_count := 1; modified_count := 0 |})
        end
      else (st, Raise (StoreError "invalid query path"))
  end.

(** [db[name].update_one(filter, update)], without upsert: when nothing
    matches, nothing is written, and nothing is written either when the
    driver raises. *)
Definition update_one (st : state) (name : string) (filter update : dict)
  : state * exc UpdateResult :=
  if valid_collection_name name then
    match request_error [filter; update] with
    | Some e => (st, Raise e)
    | None => apply_update st name filter update
    end
  else (st, Raise (InvalidName name)).

End Mongo.

(** ** The update endpoint: [update_data_in_collection] *)

Definition updated_message : value :=
  VDict [("message", VStr "Дані успішно оновлено")].

Definition not_found_message : value :=
  VDict [("message", VStr "Дані за цей id не знайдені")].

(** [{f"data.{field}": value for field, value in dynamic_updates.items()}]. *)
Definition update_fields_of (dynamic_updates : dict) : dict :=
  fold_left (fun (acc : dict) (kv : string * value) =>
               dict_setitem ("data." ++ fst kv) (snd kv) acc)
            dynamic_updates [].

(** The handler of [PUT /telegram/{collection_name}/{id_teleg}]: the store
    afterwards and the answer. *)
Definition update_data_in_collection (st : Mongo.state)
    (collection_name id_teleg : string) (dynamic_updates : dict)
  : Mongo.state * exc value :=
  let update_fields := update_fields_of dynamic_updates in
  match Mongo.update_one st collection_name
          [("id_telegram", VStr id_teleg)]
          [("$set", VDict update_fields)] with
  | (st', Ok result) =>
      if Mongo.modified_count result =? 1 then (st', Ok updated_message)
      else (st', Ok not_found_message)
  | (st', Raise e) => (st', Raise e)
  end.

(** ** The ingestion routine: [download_and_process_telegrams]

    The telegram processor and the database manager ([MongoDb().db_manager])
    are collaborators of the routine; it is modelled for any of them.
    [process_telegrams c] is
    [TelegramFactory.create_processor(country_code=c).process_telegrams().to_dict('records')].
    The manager works on a store of some type and hands out collection
    handles; each of its operations returns or raises, and leaves a store. *)

Record DbManager (store collection : Type) : Type := {
  get_or_create_collection : string -> store -> exc collection * store;
  insert_or_update_document : collection -> dict -> store -> exc unit * store
}.

(** What the routine prints: the document it is about to write, and the
    line [Processed telegrams for {country_code}: {len(documents)} records]. *)
Inductive printed : Type :=
| PrintedDocument (data_for_mongo : dict)
| PrintedProcessed (country_code : string) (count : nat).

(** One call [insert_or_update_document(collection, data_for_mongo)]. *)
Record upsert_call (collection : Type) : Type := {
  upsert_collection : collection;
  upsert_document : dict
}.

(** The store, the standard output and the upserts asked so far. *)
Record world (store collection : Type) : Type := {
  the_store : store;
  stdout : list printed;
  upserts : list (upsert_call collection)
}.

Section Ingestion.
Variables store collection : Type.
Variable db_manager : DbManager store collection.
Variable process_telegrams : string -> exc (list dict).

Definition put_store (s : store) (w : world store collection)
  : world store collection :=
  {| the_store := s; stdout := stdout w; upserts := upserts w |}.

Definition print (line : printed) (w : world store collection)
  : world store collection :=
  {| the_store := the_store w; stdout := stdout w ++ [line];
     upserts := upserts w |}.

Definition record_upsert (c : collection) (doc : dict)
    (w : world store collection) : world store collection :=
  {| the_store := the_store w; stdout := stdout w;
     upserts := upserts w ++ [Build_upsert_call c doc] |}.

(** The body of the loop for the documents left, [count] being
    [len(documents)].  [data_for_mongo["data"]] is the document itself, so the
    [pop] takes the identifier out of the payload that is written. *)
Fixpoint ingest_documents (country_code : string) (count : nat)
    (documents : list dict) (w : world store collection)
  : exc unit * world store collection :=
  match documents with
  | [] => (Ok tt, w)
  | document :: rest =>
      match dict_get "id_telegram" document with
      | None => (Raise (KeyError "id_telegram"), w)
      | Some id_telegram =>
          let document := dict_pop "id_telegram" document in
          let data_for_mongo : dict :=
            [("id_telegram", id_telegram); ("data", VDict document)] in
          match get_or_create_collection db_manager country_code (the_store w) with
          | (Raise e, s) => (Raise e, put_store s w)
          | (Ok c, s) =>
              let w := print (PrintedDocument data_for_mongo) (put_store s w) in
              let w := record_upsert c data_for_mongo w in
              match insert_or_update_document db_manager c data_for_mongo
                      (the_store w) with
              | (Raise e, s) => (Raise e, put_store s w)
              | (Ok _, s) =>
                  let w := print (PrintedProcessed country_code count)
                                 (put_store s w) in
                  ingest_documents country_code count rest w
              end
          end
      end
  end.

(** The routine has no [return] statement: when it ends, its value is
    [None]. *)
Definition download_and_process_telegrams (country_code : string)
    (w : world store collection) : exc value * world store collection :=
  match process_telegrams country_code with
  | Raise e => (Raise e, w)
  | Ok documents =>
      match ingest_documents country_code (List.length documents) documents w with
      | (Ok _, w') => (Ok VNone, w')
      | (Raise e, w') => (Raise e, w')
      end
  end.

End Ingestion.

(** Modelled from the spec: [MongoDb().db_manager] of [mongo_db.mongo_tools],
    which is not among the sources.  [get_or_create_collection] "returns the
    handle for a country's partition, creating it if absent";
    [insert_or_update_document] is the upsert: "if a record with that id
    exists, its data is replaced in full (not merged); otherwise a new record
    is created".  The handle of a collection is its name. *)
Definition spec_get_or_create_collection (country_code : string)
    (st : Mongo.state) : exc string * Mongo.state :=
  if existsb (String.eqb country_code) (Mongo.collection_names st)
  then (Ok country_code, st)
  else (Ok country_code, Mongo.set_documents st country_code []).

(** Modelled from the spec: the upsert of [insert_or_update_document] on the
    documents of a collection; the record with that identifier gets the new
    [data] in full, and without such a record a new one is added last. *)
Fixpoint spec_upsert (id_telegram data : value) (fresh_id : N)
    (docs : list dict) : list dict :=
  match docs with
  | [] => [[("_id", VObjectId fresh_id); ("id_telegram", id_telegram);
            ("data", data)]]
  | doc :: r =>
      if Mongo.matches [("id_telegram", id_telegram)] doc
      then dict_setitem "data" data doc :: r
      else doc :: spec_upsert id_telegram data fresh_id r
  end.

(** Modelled from the spec: [insert_or_update_document] of the missing
    manager, "writes [{id_telegram, data}]" into the named collection. *)
Definition spec_insert_or_update_document (name : string) (doc : dict)
    (st : Mongo.state) : exc unit * Mongo.state :=
  match dict_get "id_telegram" doc, dict_get "data" doc with
  | Some id_telegram, Some data =>
      let docs := Mongo.documents st name in
      (Ok tt,
       Mongo.set_documents st name
         (spec_upsert id_telegram data (N.of_nat (List.length docs)) docs))
  | _, _ => (Raise (KeyError "id_telegram"), st)
  end.

(** Modelled from the spec: the missing manager, with the two operations
    above. *)
Definition spec_db_manager : DbManager Mongo.state string :=
  {| get_or_create_collection := spec_get_or_create_collection;
     insert_or_update_document := spec_insert_or_update_document |}.

(** ** The query as the specification describes it *)

Fixpoint all_digits (s : string) : bool :=
  match s with
  | EmptyString => true
  | String c r => is_digit c && all_digits r
  end.

(** The number a string of decimal digits writes, after the digits that
    gave [acc]. *)
Fixpoint decimal_value (acc : Z) (s : string) : Z :=
  match s with
  | EmptyString => acc
  | String c r => decimal_value (10 * acc + digit_value c) r
  end.

(** "[station_id] => exact match on [data.station_id]", for a station
    identifier that is set and not empty. *)
Definition station_constraint (f : TelegramFilter) : dict :=
  match station_id f with
  | Some s => if (s =? "")%string then [] else [("data.station_id", VStr s)]
  | None => []
  end.

(** "[hour] => exact match on [data.hour]", zero included. *)
Definition hour_constraint (f : TelegramFilter) : dict :=
  match hour f with
  | Some h => [("data.hour", VInt h)]
  | None => []
  end.

Definition date_constraint (year month day : Z) : dict :=
  [("data.year", VInt year); ("data.month", VInt month);
   ("data.day", VInt day)].

(** A date takes part in the query when it has eight characters or more. *)
Definition date_in_use (f : TelegramFilter) : bool :=
  match date f with
  | Some d => (8 <=? String.length d)%nat
  | None => false
  end.

(** The call the loop makes for a collection, given the query. *)
Definition call_for (f : TelegramFilter) (query : dict) (name : string)
  : find_call :=
  {| call_collection := name; call_query := query;
     call_projection := build_projection f |}.

(** The answer of the endpoint for the documents found. *)
Definition answer_for (found : list dict) : value :=
  match found with
  | [] => no_data_found
  | _ => VDict [("results", clean_data (VList (map VDict found)))]
  end.

(** A stored telegram record: [_id], [id_telegram] and a [data] mapping, in
    this order, each key once. *)
Definition telegram_record (doc : dict) : bool :=
  match doc with
  | [(k1, VObjectId _); (k2, VStr _); (k3, VDict _)] =>
      String.eqb k1 "_id" && String.eqb k2 "id_telegram"
      && String.eqb k3 "data" && wf_dict doc
  | _ => false
  end.

(** A field name without dots, not empty, not starting with [$] and
    without the null character. *)
Definition simple_field (s : string) : bool :=
  match Mongo.split_dots s with
  | [name] => Mongo.plain_name name && negb (has_char "000" name)
  | _ => false
  end.

(** ** Sample data *)

Definition sample_tree : value :=
  VDict [("station_id", VStr "34504");
         ("temperature", VFloat S754_nan);
         ("precipitation_s1",
          VDict [("amount", VFloat (S754_infinity false));
                 ("time_before_obs", VNone)]);
         ("levels",
          VList [VFloat (S754_infinity true); VInt 3;
                 VFloat (S754_finite false 5 (-1))])].

Definition record_34504 : dict :=
  [("_id", VObjectId 1);
   ("id_telegram", VStr "3450420249118");
   ("data", VDict [("station_id", VStr "34504"); ("year", VInt 2024);
                   ("month", VInt 9); ("day", VInt 1); ("hour", VInt 18);
                   ("temperature", VFloat S754_nan)])].

Definition record_34505 : dict :=
  [("_id", VObjectId 2);
   ("id_telegram", VStr "3450520249118");
   ("data", VDict [("station_id", VStr "34505"); ("year", VInt 2024);
                   ("month", VInt 9); ("day", VInt 1); ("hour", VInt 18);
                   ("temperature", VInt 24)])].

Definition record_26850 : dict :=
  [("_id", VObjectId 3);
   ("id_telegram", VStr "268502024910");
   ("data", VDict [("station_id", VStr "26850"); ("year", VInt 2024);
                   ("month", VInt 9); ("day", VInt 1); ("hour", VInt 0);
                   ("temperature", VInt 17)])].

Definition sample_store : Mongo.state :=
  [("ua", [record_34504; record_34505]); ("bel", [record_26850])].



(** The criteria [{country_code: "ua", date: "20240901", hour: 18}]. *)
Definition ua_evening_filter : TelegramFilter :=
  Build_TelegramFilter (Some "ua") None (Some "20240901") None None (Some 18)
    None None None None None None None None None None None None None None
    None None None None None.

(** A processor that delivers two records, for any country. *)
Definition sample_processor (country_code : string) : exc (list dict) :=
  Ok [[("id_telegram", VStr "3450420249118"); ("station_id", VStr "34504");
       ("hour", VInt 18)];
      [("id_telegram", VStr "3450520249118"); ("station_id", VStr "34505");
       ("hour", VInt 18)]].

Definition empty_world : world Mongo.state string :=
  {| the_store := []; stdout := []; upserts := [] |}.

(** ** The ingestion as the specification describes it *)

(** What is written for a record: its identifier at the top level and, under
    [data], the record without the identifier. *)
Definition upsert_of (document written : dict) : Prop :=
  exists id_telegram,
    dict_get "id_telegram" document = Some id_telegram /\
    written = [("id_telegram", id_telegram);
               ("data", VDict (dict_pop "id_telegram" document))].

(** The "Processed telegrams" lines among what was printed. *)
Definition processed_lines (out : list printed) : list printed :=
  filter (fun line => match line with
                      | PrintedProcessed _ _ => true
                      | PrintedDocument _ => false
                      end) out.

(** A manager that hands out every collection and accepts every document of
    the shape [{id_telegram, data}]. *)
Definition never_fails (store collection : Type)
    (m : DbManager store collection) : Prop :=
  (forall c s, exists h, fst (get_or_create_collection m c s) = Ok h) /\
  (forall h id_telegram data s,
     fst (insert_or_update_document m h
            [("id_telegram", id_telegram); ("data", data)] s) = Ok tt).

(** ** The projection as the specification describes it *)


(** A store that holds telegram records only. *)
Definition holds_telegram_records (st : Mongo.state) : bool :=
  forallb (fun c => forallb telegram_record (snd c)) st.


(** The projection entry the loop adds for a field. *)
Definition projected (field : string) : string * value :=
  (("data." ++ field)%string, VBool true).






(** * The rest of the module

    The second sanitizer ([clean_nan_values]) and the lookup and delete
    endpoints. *)

(** ** [clean_nan_values]

    [math.isnan(data)] holds of NaN only.  The [dict] branch is a
    comprehension: a new dictionary that receives [k: clean_nan_values(v)]
    for the items in turn. *)

Definition isnan (f : spec_float) : bool :=
  match f with
  | S754_nan => true
  | _ => false
  end.

Fixpoint clean_nan_values (data : value) : value :=
  match data with
  | VDict d => VDict (assign_each clean_nan_values d [])
  | VList l => VList (map clean_nan_values l)
  | VFloat f => if isnan f then VNone else VFloat f
  | _ => data
  end.

(** A tree without NaN and without infinity, at any depth. *)
Fixpoint finite_floats (v : value) : bool :=
  match v with
  | VFloat f => negb (is_inf_or_nan f)
  | VList l => forallb finite_floats l
  | VDict d => forallb (fun kv => finite_floats (snd kv)) d
  | _ => true
  end.

(** A tree without NaN, at any depth. *)
Fixpoint no_nan (v : value) : bool :=
  match v with
  | VFloat f => negb (isnan f)
  | VList l => forallb no_nan l
  | VDict d => forallb (fun kv => no_nan (snd kv)) d
  | _ => true
  end.

(** ** More of the document store: [find_one] and [delete_one] *)

Module MongoCollection.

(** [db[name].find_one(filter, projection)]: the first document that
    matches, projected; [None] when there is none. *)
Definition find_one (st : Mongo.state) (name : string)
    (filter projection : dict) : exc (option dict) :=
  if valid_collection_name name then
    match Mongo.request_error [filter; projection] with
    | Some e => Raise e
    | None =>
        if forallb (fun kv => Mongo.valid_path (Mongo.split_dots (fst kv)))
                   filter
        then
          proj <- Mongo.projector projection ;;
          Ok (option_map proj
                (List.find (Mongo.matches filter) (Mongo.documents st name)))
        else Raise (StoreError "invalid query path")
    end
  else Raise (InvalidName name).

(** The result of [delete_one]. *)
Record DeleteResult : Type := {
  deleted_count : Z
}.

(** The documents without the first one that matches; [None] when no
    document matches. *)
Fixpoint remove_first (filter : dict) (docs : list dict)
  : option (list dict) :=
  match docs with
  | [] => None
  | doc :: r =>
      if Mongo.matches filter doc then Some r
      else option_map (cons doc) (remove_first filter r)
  end.

(** [db[name].delete_one(filter)]. *)
Definition delete_one (st : Mongo.state) (name : string) (filter : dict)
  : Mongo.state * exc DeleteResult :=
  if valid_collection_name name then
    match Mongo.request_error [filter] with
    | Some e => (st, Raise e)
    | None =>
        if forallb (fun kv => Mongo.valid_path (Mongo.split_dots (fst kv)))
                   filter
        then
          match remove_first filter (Mongo.documents st name) with
          | Some docs =>
              (Mongo.set_documents st name docs, Ok {| deleted_count := 1 |})
          | None => (st, Ok {| deleted_count := 0 |})
          end
        else (st, Raise (StoreError "invalid query path"))
    end
  else (st, Raise (InvalidName name)).

End MongoCollection.

(** A value the store takes as the value of a field, whatever its
    version: its integers fit in 64 bits, and the keys of its embedded
    documents are simple field names. *)
Fixpoint storable (v : value) : bool :=
  match v with
  | VInt z => Mongo.int64 z
  | VList l => forallb storable l
  | VDict d => forallb (fun kv => simple_field (fst kv) && storable (snd kv)) d
  | _ => true
  end.

(** ** The lookup endpoint: [get_data_from_collection] *)

Definition absent_message : value :=
  VDict [("message", VStr "Дані за цей період відсутні")].

(** What [JSONResponse(content=v)] raises, if anything.  The response
    renders its content when it is built, with [json.dumps] and
    [allow_nan=False]: [TypeError] for a value JSON has no form for (an
    [ObjectId]), [ValueError] for an infinity or NaN; the first one met. *)
Fixpoint render_error (v : value) : option exn :=
  match v with
  | VObjectId _ => Some TypeError
  | VFloat f => if is_inf_or_nan f then Some ValueError else None
  | VList l => Mongo.first_error render_error l
  | VDict d => Mongo.first_error (fun kv => render_error (snd kv)) d
  | _ => None
  end.

(** The handler of [GET /telegram/{collection_name}/{id_teleg}].  The answer
    for a record is the content given to [JSONResponse]. *)
Definition get_data_from_collection (st : Mongo.state)
    (collection_name id_teleg : string) : exc value :=
  match MongoCollection.find_one st collection_name
          [("id_telegram", VStr id_teleg)] [("_id", VBool false)] with
  | Raise e => Raise e
  | Ok None => Ok absent_message
  | Ok (Some data) =>
      let cleaned_data := clean_data (VDict data) in
      match render_error cleaned_data with
      | Some e => Raise e
      | None => Ok cleaned_data
      end
  end.

(** ** The delete endpoint: [delete_data_from_collection] *)

Definition deleted_message : value :=
  VDict [("message", VStr "Дані успішно видалено")].

(** The handler of [DELETE /telegram/{collection_name}/{id_teleg}]: the
    store afterwards and the answer. *)
Definition delete_data_from_collection (st : Mongo.state)
    (collection_name id_teleg : string) : Mongo.state * exc value :=
  match MongoCollection.delete_one st collection_name
          [("id_telegram", VStr id_teleg)] with
  | (st', Ok result) =>
      if MongoCollection.deleted_count result =? 1
      then (st', Ok deleted_message)
      else (st', Ok not_found_message)
  | (st', Raise e) => (st', Raise e)
  end.

(** ** Properties of stored records, for the statements below *)

(** The record carries this identifier. *)
Definition has_id (id_teleg : string) (doc : dict) : bool :=
  match dict_get "id_telegram" doc with
  | Some (VStr s) => String.eqb s id_teleg
  | _ => false
  end.

(** How many documents of a collection carry the identifier. *)
Definition count_id (st : Mongo.state) (name id_teleg : string) : nat :=
  List.length (filter (has_id id_teleg) (Mongo.documents st name)).

(** The number of documents of a collection. *)
Definition size_of (st : Mongo.state) (name : string) : nat :=
  List.length (Mongo.documents st name).

(** A store with the collection ["ua"] that answers every query with the
    record of station 34504. *)
Definition one_record_db : Database :=
  {| list_collection_names := Ok ["ua"];
     find := fun _ _ _ => Ok [record_34504] |}.

(** The identifier of the document, when it has one, is a string. *)
Definition plain_id (doc : dict) : bool :=
  match dict_get "id_telegram" doc with
  | Some (VStr _) | None => true
  | Some _ => false
  end.

(** The first document of a collection that carries the identifier. *)
Definition first_with_id (st : Mongo.state) (name id_teleg : string)
  : option dict :=
  List.find (has_id id_teleg) (Mongo.documents st name).

(** The key [update_data_in_collection] writes a field under. *)
Definition data_key (field : string) : string := ("data." ++ field)%string.

(** What an update of the record with the identifier [id_teleg] may change
    in a collection: each document keeps its identifier, and a document that
    does not match the filter on the identifier is kept as it is. *)
Definition updated_in_place (id_teleg : string) (before after : list dict)
  : Prop :=
  Forall2 (fun a b =>
             dict_get "id_telegram" b = dict_get "id_telegram" a /\
             (Mongo.matches [("id_telegram", VStr id_teleg)] a = false ->
              b = a))
          before after.
(** ** Lemmas on dictionaries *)

Lemma unique_keys_cons k r :
  unique_keys (k :: r) = true <-> ~ In k r /\ unique_keys r = true.
Proof.
  simpl. rewrite andb_true_iff, negb_true_iff. split.
  - intros [Hk Hr]. split; [| exact Hr].
    intro Hin. assert (existsb (String.eqb k) r = true) as E.
    { apply existsb_exists. exists k. split; [exact Hin | apply String.eqb_refl]. }
    congruence.
  - intros [Hk Hr]. split; [| exact Hr].
    destruct (existsb (String.eqb k) r) eqn:E; [| reflexivity].
    apply existsb_exists in E. destruct E as [x [Hin Hx]].
    apply String.eqb_eq in Hx. subst x. contradiction.
Qed.

Lemma dict_setitem_middle k v v0 (pre post : dict) :
  ~ In k (keys pre) ->
  dict_setitem k v (pre ++ (k, v0) :: post) = pre ++ (k, v) :: post.
Proof.
  induction pre as [| [k' v'] pre IH]; simpl; intros Hk.
  - now rewrite String.eqb_refl.
  - destruct (String.eqb k k') eqn:E.
    + apply String.eqb_eq in E. subst k'. exfalso. apply Hk. now left.
    + rewrite IH; [reflexivity |]. intro Hin. apply Hk. now right.
Qed.

Section AssignEach.
Variable g : value -> value.

Lemma keys_map_values d : keys (map_values g d) = keys d.
Proof.
  unfold keys, map_values. rewrite map_map. reflexivity.
Qed.

Lemma assign_each_from (items pre : dict) :
  unique_keys (keys items) = true ->
  (forall k, In k (keys pre) -> ~ In k (keys items)) ->
  assign_each g items (pre ++ items) = pre ++ map_values g items.
Proof.
  revert pre. induction items as [| [k v] items IH]; intros pre Hu Hpre.
  - reflexivity.
  - change (unique_keys (k :: keys items) = true) in Hu.
    apply unique_keys_cons in Hu. destruct Hu as [Hk Hu].
    unfold assign_each. simpl.
    rewrite dict_setitem_middle.
    2:{ intro Hin. apply (Hpre k Hin). now left. }
    change (pre ++ (k, g v) :: items) with (pre ++ [(k, g v)] ++ items).
    rewrite app_assoc.
    change (assign_each g items ((pre ++ [(k, g v)]) ++ items) =
            pre ++ (k, g v) :: map_values g items).
    rewrite IH; [now rewrite <- app_assoc | exact Hu |].
    intros k0 Hin. unfold keys in Hin. rewrite map_app in Hin.
    apply in_app_or in Hin. destruct Hin as [Hin | [<- | []]].
    + intro Hin'. apply (Hpre k0 Hin). now right.
    + exact Hk.
Qed.

Lemma assign_each_self (d : dict) :
  unique_keys (keys d) = true -> assign_each g d d = map_values g d.
Proof.
  intro Hu. apply (assign_each_from d [] Hu). intros k [].
Qed.

End AssignEach.

(** ** The sanitizer: equations and structure *)

Lemma not_json_float_spec f : not_json_float f = is_inf_or_nan f.
Proof.
  unfold not_json_float, SFeqb.
  destruct f as [s | s | | s m e]; try destruct s; simpl; try reflexivity;
    rewrite Z.compare_refl, Pos.compare_cont_refl; reflexivity.
Qed.

Lemma clean_data_dict d :
  unique_keys (keys d) = true ->
  clean_data (VDict d) = VDict (map_values clean_data d).
Proof.
  intro Hu. simpl. f_equal. exact (assign_each_self clean_data d Hu).
Qed.

Lemma wf_value_dict d :
  wf_value (VDict d) = true <->
  unique_keys (keys d) = true /\ Forall (fun kv => wf_value (snd kv) = true) d.
Proof.
  simpl. rewrite andb_true_iff, forallb_forall, Forall_forall. reflexivity.
Qed.

Lemma wf_value_list l :
  wf_value (VList l) = true <-> Forall (fun v => wf_value v = true) l.
Proof.
  simpl. rewrite forallb_forall, Forall_forall. reflexivity.
Qed.

Lemma clean_data_wf v : wf_value v = true -> wf_value (clean_data v) = true.
Proof.
  induction v as [| b | z | f | s | n | l IH | d IH] using value_ind;
    intro Hwf; try exact Hwf.
  - simpl. destruct (not_json_float f); reflexivity.
  - apply wf_value_list in Hwf. change (wf_value (VList (map clean_data l)) = true).
    apply wf_value_list. rewrite Forall_map.
    rewrite Forall_forall in *. intros x Hx. apply IH; [exact Hx | apply Hwf; exact Hx].
  - apply wf_value_dict in Hwf. destruct Hwf as [Hu Hd].
    rewrite clean_data_dict by exact Hu. apply wf_value_dict. split.
    + rewrite keys_map_values. exact Hu.
    + unfold map_values. rewrite Forall_map. simpl.
      rewrite Forall_forall in *. intros x Hx. apply IH; [exact Hx | apply Hd; exact Hx].
Qed.

Lemma Sanitized_clean_data v : wf_value v = true -> Sanitized v (clean_data v).
Proof.
  induction v as [| b | z | f | s | n | l IH | d IH] using value_ind;
    intro Hwf; try solve [simpl; constructor].
  - simpl. destruct (not_json_float f) eqn:E; rewrite not_json_float_spec in E;
      constructor; exact E.
  - apply wf_value_list in Hwf. simpl. constructor. clear - IH Hwf.
    induction l as [| x l IHl]; simpl; constructor.
    + inversion IH; inversion Hwf; subst; auto.
    + inversion IH; inversion Hwf; subst; auto.
  - apply wf_value_dict in Hwf. destruct Hwf as [Hu Hd].
    rewrite clean_data_dict by exact Hu. constructor. clear Hu.
    induction d as [| kv d IHd]; simpl; constructor.
    + inversion IH; inversion Hd; subst; auto.
    + inversion IH; inversion Hd; subst; auto.
Qed.

Lemma Forall2_functional (A B : Type) (R : A -> B -> Prop) (l : list A) :
  Forall (fun x => forall y1 y2, R x y1 -> R x y2 -> y1 = y2) l ->
  forall l1 l2, Forall2 R l l1 -> Forall2 R l l2 -> l1 = l2.
Proof.
  induction 1 as [| x l Hx Hl IH]; intros l1 l2 H1 H2;
    inversion H1; inversion H2; subst; [reflexivity |].
  f_equal; [eapply Hx; eassumption | apply IH; assumption].
Qed.

Lemma Sanitized_functional v : forall v1 v2,
  Sanitized v v1 -> Sanitized v v2 -> v1 = v2.
Proof.
  induction v as [| b | z | f | s | n | l IH | d IH] using value_ind;
    intros v1 v2 H1 H2; inversion H1; inversion H2; subst;
    try reflexivity; try congruence.
  - f_equal. eapply Forall2_functional; eassumption.
  - f_equal. eapply Forall2_functional; [| eassumption | eassumption].
    eapply Forall_impl; [| exact IH]. simpl.
    intros [k v] Hv [k1 w1] [k2 w2] [K1 S1] [K2 S2]. simpl in *.
    f_equal; [congruence | eapply Hv; eassumption].
Qed.

(** ** C1 and C7: the sanitizer *)

(** C1.  For every value tree built from mappings, lists and scalars,
    [clean_data] returns a tree of the same shape (same keys in the same
    order, same list lengths) in which exactly the doubles that are positive
    infinity, negative infinity or NaN have become [None], at any depth, and
    every other value is unchanged: its result is the one tree the contract
    [Sanitized] allows. *)
Theorem clean_data_sanitizes (v : value) :
  wf_value v = true ->
  Sanitized v (clean_data v) /\
  (forall v', Sanitized v v' -> v' = clean_data v).
Proof.
  intro Hwf. split.
  - apply Sanitized_clean_data. exact Hwf.
  - intros v' Hv'. eapply Sanitized_functional; [exact Hv' |].
    apply Sanitized_clean_data. exact Hwf.
Qed.

(** An instance: the sample tree, which holds NaN and both infinities. *)
Lemma clean_data_sanitizes_witness :
  wf_value sample_tree = true /\
  Sanitized sample_tree (clean_data sample_tree) /\
  (forall v', Sanitized sample_tree v' -> v' = clean_data sample_tree).
Proof.
  split; [reflexivity | apply (clean_data_sanitizes sample_tree); reflexivity].
Defined.

(** C7.  The sanitizer is idempotent: cleaning a cleaned tree changes
    nothing. *)
Theorem clean_data_idempotent (v : value) :
  wf_value v = true -> clean_data (clean_data v) = clean_data v.
Proof.
  induction v as [| b | z | f | s | n | l IH | d IH] using value_ind;
    intro Hwf; try reflexivity.
  - simpl. destruct (not_json_float f) eqn:E; simpl; [reflexivity |].
    now rewrite E.
  - apply wf_value_list in Hwf. simpl. f_equal. rewrite map_map.
    apply map_ext_in. intros x Hx. rewrite Forall_forall in IH, Hwf. auto.
  - apply wf_value_dict in Hwf. destruct Hwf as [Hu Hd].
    rewrite clean_data_dict by exact Hu.
    rewrite clean_data_dict by (rewrite keys_map_values; exact Hu).
    f_equal. unfold map_values. rewrite map_map. simpl.
    apply map_ext_in. intros x Hx. rewrite Forall_forall in IH, Hd.
    f_equal. auto.
Qed.

(** An instance: the sample tree. *)
Lemma clean_data_idempotent_witness :
  wf_value sample_tree = true /\
  clean_data (clean_data sample_tree) = clean_data sample_tree.
Proof.
  split; [reflexivity | apply (clean_data_idempotent sample_tree); reflexivity].
Defined.

(** ** Reading numbers *)

Lemma is_digit_range c :
  is_digit c = true -> (48 <= nat_of_ascii c <= 57)%nat.
Proof.
  unfold is_digit. rewrite andb_true_iff, !Nat.leb_le. tauto.
Qed.

Lemma is_digit_not_space c : is_digit c = true -> is_space c = false.
Proof.
  intro H. apply is_digit_range in H. unfold is_space.
  apply orb_false_iff. split.
  - apply andb_false_iff. right. apply Nat.leb_gt. lia.
  - apply Nat.eqb_neq. lia.
Qed.

Lemma is_digit_not_char c (x : ascii) :
  is_digit c = true ->
  (nat_of_ascii x < 48 \/ 57 < nat_of_ascii x)%nat ->
  Ascii.eqb c x = false.
Proof.
  intros H Hx. apply is_digit_range in H. apply Ascii.eqb_neq.
  intro E. subst x. lia.
Qed.

Lemma int_digits_all_digits s : forall acc,
  all_digits s = true -> int_digits acc s = Some (decimal_value acc s, EmptyString).
Proof.
  induction s as [| c r IH]; intros acc H; simpl in *.
  - reflexivity.
  - apply andb_true_iff in H. destruct H as [Hc Hr].
    rewrite Hc. apply IH. exact Hr.
Qed.

Lemma py_int_digits c r :
  all_digits (String c r) = true ->
  py_int (String c r) = Ok (decimal_value 0 (String c r)).
Proof.
  intro H. simpl in H. apply andb_true_iff in H. destruct H as [Hc Hr].
  unfold py_int. simpl lstrip. rewrite (is_digit_not_space _ Hc).
  rewrite (@is_digit_not_char c "+"%char Hc) by (left; apply Nat.ltb_lt; reflexivity).
  rewrite (@is_digit_not_char c "-"%char Hc) by (left; apply Nat.ltb_lt; reflexivity).
  unfold int_unsigned. rewrite Hc.
  rewrite (int_digits_all_digits r (digit_value c) Hr). simpl.
  reflexivity.
Qed.

Lemma date_fields_digits d :
  (8 <= String.length d)%nat ->
  all_digits (py_slice 0 8 d) = true ->
  date_fields d = Ok (decimal_value 0 (py_slice 0 4 d),
                      decimal_value 0 (py_slice 4 6 d),
                      decimal_value 0 (py_slice 6 8 d)).
Proof.
  intros Hlen Hd.
  destruct d as [| c1 [| c2 [| c3 [| c4 [| c5 [| c6 [| c7 [| c8 r]]]]]]]];
    simpl in Hlen; try lia.
  unfold date_fields, py_slice in *. cbn [substring Nat.sub] in *.
  replace (substring 0 0 r) with EmptyString in * by (destruct r; reflexivity).
  cbn [all_digits] in Hd.
  repeat (apply andb_true_iff in Hd;
          let H := fresh "D" in destruct Hd as [H Hd]).
  rewrite !py_int_digits
    by (cbn [all_digits]; rewrite ?D, ?D0, ?D1, ?D2, ?D3, ?D4, ?D5, ?D6; reflexivity).
  reflexivity.
Qed.

(** ** C2, C3, C10: the query of [filter_telegrams] *)

Lemma build_query_no_date f :
  date_in_use f = false ->
  build_query f = Some (station_constraint f ++ hour_constraint f).
Proof.
  unfold build_query, date_in_use, station_constraint, hour_constraint.
  intro H.
  destruct (station_id f) as [s |]; destruct (date f) as [d |];
    destruct (hour f) as [h |]; try rewrite H; rewrite ?andb_false_r;
    simpl; try destruct (s =? "")%string; reflexivity.
Qed.

Lemma long_string_truthy d :
  (8 <= String.length d)%nat -> truthy (VStr d) = true.
Proof.
  destruct d; simpl; [lia | reflexivity].
Qed.

Lemma build_query_dated f d year month day :
  date f = Some d -> (8 <= String.length d)%nat ->
  date_fields d = Ok (year, month, day) ->
  build_query f =
  Some (station_constraint f ++ date_constraint year month day
        ++ hour_constraint f).
Proof.
  unfold build_query, station_constraint, hour_constraint, date_constraint.
  intros Hd Hlen Hparse. rewrite Hd, Hparse, (long_string_truthy _ Hlen).
  apply Nat.leb_le in Hlen. rewrite Hlen.
  destruct (station_id f) as [s |]; destruct (hour f) as [h |];
    simpl; try destruct (s =? "")%string; reflexivity.
Qed.

Lemma build_query_unparseable f d e :
  date f = Some d -> (8 <= String.length d)%nat ->
  date_fields d = Raise e -> build_query f = None.
Proof.
  unfold build_query. intros Hd Hlen Hparse.
  rewrite Hd, Hparse, (long_string_truthy _ Hlen).
  apply Nat.leb_le in Hlen. rewrite Hlen. reflexivity.
Qed.

Lemma build_query_agree f f' :
  station_id f' = station_id f -> date f' = date f -> hour f' = hour f ->
  build_query f' = build_query f.
Proof.
  unfold build_query. intros -> -> ->. reflexivity.
Qed.

Lemma collections_to_query_country db f c :
  country_code f = Some c -> c <> EmptyString ->
  collections_to_query db f = Ok [c].
Proof.
  unfold collections_to_query. intros -> Hc.
  destruct c; [contradiction | reflexivity].
Qed.

Lemma filter_telegrams_single_call db f c q :
  country_code f = Some c -> c <> EmptyString -> build_query f = Some q ->
  fst (filter_telegrams db f) = [call_for f q c].
Proof.
  intros Hc Hne Hq. unfold filter_telegrams.
  rewrite (collections_to_query_country db f Hc Hne).
  unfold query_collections. rewrite Hq. simpl app.
  destruct (find db c q (build_projection f)) as [rs | e]; [| reflexivity].
  destruct (negb _); reflexivity.
Qed.

(** The claim C2 as it is worded fails: a date that is present but shorter
    than eight characters adds no constraint on the year, the month or the
    day. *)
Lemma short_date_adds_no_constraint :
  date (with_date (Some "2024") empty_filter) = Some "2024" /\
  exists q, build_query (with_date (Some "2024") empty_filter) = Some q /\
            dict_get "data.year" q = None /\
            dict_get "data.month" q = None /\
            dict_get "data.day" q = None.
Proof.
  split; [reflexivity |]. exists []. repeat split.
Qed.

(** C2, amended.  The query of [filter_telegrams] is the conjunction, in
    this order, of: an exact match on [data.station_id] when [station_id] is
    set and not empty; exact matches on [data.year], [data.month] and
    [data.day] when [date] has eight characters or more and its characters
    0-3, 4-5 and 6-7 are read by [int] (for eight digits, their decimal
    values); an exact match on [data.hour] when [hour] is set, zero
    included.  A date that is unset or shorter than eight characters adds
    nothing.  No other field of the criteria matters, and with a country
    code only that collection is asked. *)
Theorem filter_query_is_conjunction (f : TelegramFilter) :
  (date_in_use f = false ->
   build_query f = Some (station_constraint f ++ hour_constraint f)) /\
  (forall d year month day,
     date f = Some d -> (8 <= String.length d)%nat ->
     date_fields d = Ok (year, month, day) ->
     build_query f =
     Some (station_constraint f ++ date_constraint year month day
           ++ hour_constraint f)) /\
  (forall d,
     date f = Some d -> (8 <= String.length d)%nat ->
     all_digits (py_slice 0 8 d) = true ->
     build_query f =
     Some (station_constraint f
           ++ date_constraint (decimal_value 0 (py_slice 0 4 d))
                              (decimal_value 0 (py_slice 4 6 d))
                              (decimal_value 0 (py_slice 6 8 d))
           ++ hour_constraint f)) /\
  (forall f',
     station_id f' = station_id f -> date f' = date f -> hour f' = hour f ->
     build_query f' = build_query f) /\
  (forall db c q,
     country_code f = Some c -> c <> EmptyString -> build_query f = Some q ->
     collections_to_query db f = Ok [c] /\
     fst (filter_telegrams db f) = [call_for f q c]).
Proof.
  split; [apply build_query_no_date |].
  split; [intros; eapply build_query_dated; eassumption |].
  split.
  { intros d Hd Hlen Hdigits. eapply build_query_dated; try eassumption.
    apply date_fields_digits; assumption. }
  split; [intros; apply build_query_agree; assumption |].
  intros db c q Hc Hne Hq. split.
  - apply collections_to_query_country; assumption.
  - apply filter_telegrams_single_call; assumption.
Qed.

(** An instance: the criteria [{country_code: "ua", date: "20240901", hour: 18}]
    ask only the collection ["ua"], for year 2024, month 9, day 1, hour 18. *)
Lemma filter_query_is_conjunction_witness :
  build_query ua_evening_filter =
  Some [("data.year", VInt 2024); ("data.month", VInt 9);
        ("data.day", VInt 1); ("data.hour", VInt 18)] /\
  collections_to_query (Mongo.db sample_store) ua_evening_filter = Ok ["ua"] /\
  map call_collection (fst (filter_telegrams (Mongo.db sample_store) ua_evening_filter))
  = ["ua"].
Proof.
  pose proof (filter_query_is_conjunction ua_evening_filter)
    as [_ [_ [Hdigits [_ Hcountry]]]].
  assert (build_query ua_evening_filter =
          Some [("data.year", VInt 2024); ("data.month", VInt 9);
                ("data.day", VInt 1); ("data.hour", VInt 18)]) as Hq.
  { apply (Hdigits "20240901"); [reflexivity | simpl; lia | reflexivity]. }
  split; [exact Hq |].
  destruct (Hcountry (Mongo.db sample_store) "ua" _ eq_refl
              ltac:(discriminate) Hq) as [Hnames Hcalls].
  split; [exact Hnames | rewrite Hcalls; reflexivity].
Defined.

Lemma query_collections_skipped db f :
  build_query f = None ->
  forall names results calls,
    query_collections db f names results calls
    = match List.find (fun n => negb (valid_collection_name n)) names with
      | None => (calls, Ok results)
      | Some n => (calls, Raise (InvalidName n))
      end.
Proof.
  intros Hq names. induction names as [| n names IH]; intros results calls.
  - reflexivity.
  - simpl. rewrite Hq.
    destruct (valid_collection_name n); [apply IH | reflexivity].
Qed.

Lemma find_invalid_none names :
  forallb valid_collection_name names = true ->
  List.find (fun n => negb (valid_collection_name n)) names = None.
Proof.
  induction names as [| n names IH]; simpl; [reflexivity |].
  intro H. apply andb_true_iff in H. destruct H as [-> H]. simpl.
  apply IH. exact H.
Qed.

(** The claim C3 as it is worded fails: with the date ["badbadba"] the
    collection is not asked at all and the answer is "no data found", while
    with the date unset the collection is asked and its two records of hour
    18 are returned. *)
Lemma unparseable_date_is_not_dropped :
  filter_telegrams (Mongo.db sample_store)
    (with_date (Some "badbadba") ua_evening_filter)
  = ([], Ok no_data_found) /\
  filter_telegrams (Mongo.db sample_store)
    (with_date None ua_evening_filter)
  = ([call_for ua_evening_filter [("data.hour", VInt 18)] "ua"],
     Ok (VDict [("results",
                 clean_data (VList [VDict (dict_pop "_id" record_34504);
                                    VDict (dict_pop "_id" record_34505)]))])).
Proof.
  split; reflexivity.
Qed.

(** C3, amended.  When [date] is made of ASCII characters, has eight of them
    or more, and one of its three parts is not read by [int], the date is
    not dropped: every targeted collection is skipped.  No query is built,
    the store is asked for no document and the parse failure raises nothing.
    The answer is the "no data found" message whatever the store holds; the
    request fails only when the collections cannot be listed, or with
    [InvalidName] at the first targeted name that is not a collection
    name. *)
Theorem unparseable_date_skips_every_collection
    (db : Database) (f : TelegramFilter) (d : string) :
  date f = Some d -> is_ascii d = true -> (8 <= String.length d)%nat ->
  date_fields d = Raise ValueError ->
  build_query f = None /\
  filter_telegrams db f =
  match collections_to_query db f with
  | Ok names =>
      match List.find (fun n => negb (valid_collection_name n)) names with
      | None => ([], Ok no_data_found)
      | Some n => ([], Raise (InvalidName n))
      end
  | Raise e => ([], Raise e)
  end.
Proof.
  intros Hd _ Hlen Hparse.
  assert (build_query f = None) as Hq
    by (eapply build_query_unparseable; eassumption).
  split; [exact Hq |].
  unfold filter_telegrams.
  destruct (collections_to_query db f) as [names | e]; [| reflexivity].
  rewrite (query_collections_skipped db f Hq).
  destruct (List.find _ names); reflexivity.
Qed.

(** An instance: the date ["badbadba"], for the collection ["ua"] and for
    the name ["a$b"]. *)
Lemma unparseable_date_skips_every_collection_witness :
  date (with_date (Some "badbadba") ua_evening_filter) = Some "badbadba" /\
  is_ascii "badbadba" = true /\
  (8 <= String.length "badbadba")%nat /\
  date_fields "badbadba" = Raise ValueError /\
  build_query (with_date (Some "badbadba") ua_evening_filter) = None /\
  filter_telegrams (Mongo.db sample_store)
    (with_date (Some "badbadba") ua_evening_filter)
  = ([], Ok no_data_found).
Proof.
  split; [reflexivity |]. split; [reflexivity |]. split; [simpl; lia |].
  split; [reflexivity |].
  apply (@unparseable_date_skips_every_collection (Mongo.db sample_store)
           (with_date (Some "badbadba") ua_evening_filter) "badbadba");
    [reflexivity | reflexivity | simpl; lia | reflexivity].
Defined.

Lemma build_query_hour f h :
  build_query (with_hour (Some h) f)
  = option_map (fun q => q ++ [("data.hour", VInt h)])
               (build_query (with_hour None f)).
Proof.
  unfold build_query. simpl hour. simpl station_id. simpl date.
  destruct (station_id f) as [[| c s] |]; simpl truthy; cbv iota;
    (destruct (date f) as [d |];
     [ destruct (_ && _);
       [ destruct (date_fields d) as [[[y m] dd] | e] | ] | ]);
    reflexivity.
Qed.

Lemma query_collections_agree db f f' :
  build_query f' = build_query f ->
  build_projection f' = build_projection f ->
  forall names results calls,
    query_collections db f' names results calls
    = query_collections db f names results calls.
Proof.
  intros Hq Hp names.
  induction names as [| n names IH]; intros results calls; [reflexivity |].
  simpl. rewrite Hq, Hp.
  destruct (build_query f) as [q |].
  - destruct (find db n q _); [apply IH | reflexivity].
  - destruct (valid_collection_name n); [apply IH | reflexivity].
Qed.

Lemma build_query_without_station f q :
  given (station_id f) = false ->
  build_query f = Some q -> dict_get "data.station_id" q = None.
Proof.
  unfold build_query, given.
  destruct (station_id f) as [s |]; [intros -> | intros _];
    (destruct (date f) as [d |];
     [ destruct (_ && _);
       [ destruct (date_fields d) as [[[y m] dd] | e] | ] | ]);
    destruct (hour f) as [h |]; intros [= <-]; reflexivity.
Qed.

(** C10.  An empty [station_id] is treated as an unset one: the query holds
    no constraint on [data.station_id], it is the query built without a
    station identifier, and the whole request is answered alike.  The hour
    is tested against [None] instead: an hour that is set, zero included,
    adds its constraint. *)
Theorem empty_station_id_is_unset (db : Database) (f : TelegramFilter) :
  (forall q,
     build_query (with_station_id (Some EmptyString) f) = Some q ->
     dict_get "data.station_id" q = None) /\
  build_query (with_station_id (Some EmptyString) f)
  = build_query (with_station_id None f) /\
  filter_telegrams db (with_station_id (Some EmptyString) f)
  = filter_telegrams db (with_station_id None f) /\
  build_query (with_hour (Some 0) f)
  = option_map (fun q => q ++ [("data.hour", VInt 0)])
               (build_query (with_hour None f)).
Proof.
  assert (build_query (with_station_id (Some EmptyString) f)
          = build_query (with_station_id None f)) as Hq by reflexivity.
  split; [| split; [exact Hq | split]].
  - intros q. apply build_query_without_station. reflexivity.
  - unfold filter_telegrams, collections_to_query. simpl country_code.
    destruct (country_code f) as [c |];
      [destruct (truthy (VStr c)) |];
      try destruct (list_collection_names db); try reflexivity;
      rewrite (@query_collections_agree db _ _ Hq eq_refl); reflexivity.
  - apply build_query_hour.
Qed.

(** An instance: the evening filter for ["ua"] with an empty station
    identifier. *)
Lemma empty_station_id_is_unset_witness :
  build_query (with_station_id (Some EmptyString) ua_evening_filter)
  = Some [("data.year", VInt 2024); ("data.month", VInt 9);
          ("data.day", VInt 1); ("data.hour", VInt 18)] /\
  dict_get "data.station_id"
    [("data.year", VInt 2024); ("data.month", VInt 9);
     ("data.day", VInt 1); ("data.hour", VInt 18)] = None.
Proof.
  split; [reflexivity |].
  apply (proj1 (empty_station_id_is_unset (Mongo.db sample_store)
                  ua_evening_filter)).
  reflexivity.
Defined.

(** ** C6: the fan-out over the collections *)

Lemma query_collections_ok db f q :
  build_query f = Some q ->
  forall names answers results calls,
    Forall2 (fun n rs => find db n q (build_projection f) = Ok rs)
            names answers ->
    query_collections db f names results calls
    = (calls ++ map (call_for f q) names, Ok (results ++ List.concat answers)).
Proof.
  intros Hq names answers results calls Hall. revert results calls.
  induction Hall as [| n rs names answers Hn Hall IH]; intros results calls.
  - simpl. now rewrite !app_nil_r.
  - simpl. rewrite Hq, Hn, IH. unfold call_for at 2.
    now rewrite <- !app_assoc.
Qed.

Lemma query_collections_error db f q e :
  build_query f = Some q ->
  forall pre answers n post results calls,
    Forall2 (fun n rs => find db n q (build_projection f) = Ok rs)
            pre answers ->
    find db n q (build_projection f) = Raise e ->
    query_collections db f (pre ++ n :: post) results calls
    = (calls ++ map (call_for f q) (pre ++ [n]), Raise e).
Proof.
  intros Hq pre answers n post results calls Hall Hn. revert results calls.
  induction Hall as [| m rs pre answers Hm Hall IH]; intros results calls.
  - simpl. rewrite Hq, Hn. reflexivity.
  - simpl. rewrite Hq, Hm, IH. unfold call_for at 2.
    now rewrite <- !app_assoc.
Qed.

Lemma answer_for_spec (calls : list find_call) found :
  (if negb (truthy (clean_data (VList (map VDict found))))
   then (calls, Ok no_data_found)
   else (calls, Ok (VDict [("results", clean_data (VList (map VDict found)))])))
  = (calls, Ok (answer_for found)).
Proof.
  destruct found; reflexivity.
Qed.

Lemma answer_for_no_data found :
  answer_for found = no_data_found <-> found = [].
Proof.
  split; [| intros ->; reflexivity].
  destruct found; [reflexivity | discriminate].
Qed.

Lemma collections_to_query_all db f :
  given (country_code f) = false ->
  collections_to_query db f = list_collection_names db.
Proof.
  unfold given, collections_to_query.
  destruct (country_code f) as [c |]; [| reflexivity].
  intros ->. reflexivity.
Qed.

(** The claim C6 as it is worded fails: without a country code and with two
    collections in the store, a date that cannot be read leads to no query
    at all. *)
Lemma fan_out_skipped_on_unparseable_date :
  country_code (with_date (Some "badbadba") empty_filter) = None /\
  list_collection_names (Mongo.db sample_store) = Ok ["ua"; "bel"] /\
  fst (filter_telegrams (Mongo.db sample_store)
         (with_date (Some "badbadba") empty_filter)) = [].
Proof.
  repeat split.
Qed.

(** C6, amended.  For criteria without a country code (unset or empty) whose
    query is built (the date is unset, short, or readable), [filter_telegrams]
    asks each of the N collections of the store once, in the order the store
    lists them, with the same query and projection, and answers with the
    sanitized concatenation of what was found, in that order.  When nothing
    was found the answer is the "no data found" message and not an empty
    result list; an error of the store ends the request with that error,
    which is never this message. *)
Theorem fan_out_over_all_collections
    (db : Database) (f : TelegramFilter) (names : list string) (q : dict) :
  given (country_code f) = false ->
  list_collection_names db = Ok names ->
  build_query f = Some q ->
  (forall answers,
     Forall2 (fun n rs => find db n q (build_projection f) = Ok rs)
             names answers ->
     filter_telegrams db f
     = (map (call_for f q) names, Ok (answer_for (List.concat answers)))) /\
  (forall pre n post answers e,
     names = pre ++ n :: post ->
     Forall2 (fun n rs => find db n q (build_projection f) = Ok rs)
             pre answers ->
     find db n q (build_projection f) = Raise e ->
     filter_telegrams db f
     = (map (call_for f q) (pre ++ [n]), Raise e)) /\
  (forall found, answer_for found = no_data_found <-> found = []) /\
  (forall e, Ok no_data_found <> (Raise e : exc value)).
Proof.
  intros Hc Hnames Hq.
  assert (collections_to_query db f = Ok names) as Hcoll
    by (rewrite collections_to_query_all; assumption).
  split; [| split; [| split]].
  - intros answers Hall. unfold filter_telegrams. rewrite Hcoll.
    rewrite (@query_collections_ok db f q Hq names answers [] [] Hall). simpl app.
    apply answer_for_spec.
  - intros pre n post answers e -> Hall Hn. unfold filter_telegrams.
    rewrite Hcoll.
    rewrite (@query_collections_error db f q e Hq pre answers n post [] [] Hall Hn).
    reflexivity.
  - apply answer_for_no_data.
  - discriminate.
Qed.

(** An instance: the empty criteria on the sample store ask ["ua"] then
    ["bel"] and return the three records. *)
Lemma fan_out_over_all_collections_witness :
  given (country_code empty_filter) = false /\
  list_collection_names (Mongo.db sample_store) = Ok ["ua"; "bel"] /\
  build_query empty_filter = Some [] /\
  filter_telegrams (Mongo.db sample_store) empty_filter
  = (map (call_for empty_filter []) ["ua"; "bel"],
     Ok (answer_for (List.concat [[dict_pop "_id" record_34504;
                              dict_pop "_id" record_34505];
                             [dict_pop "_id" record_26850]]))).
Proof.
  split; [reflexivity |]. split; [reflexivity |]. split; [reflexivity |].
  apply (proj1 (@fan_out_over_all_collections (Mongo.db sample_store)
                  empty_filter ["ua"; "bel"] [] eq_refl eq_refl eq_refl)).
  repeat constructor.
Defined.

(** ** C5 and C8: the ingestion routine *)

Lemma dict_get_absent k (d : dict) :
  ~ In k (keys d) -> dict_get k d = None.
Proof.
  induction d as [| [k' v'] d IH]; simpl; intro H; [reflexivity |].
  destruct (String.eqb k k') eqn:E.
  - apply String.eqb_eq in E. subst k'. exfalso. apply H. now left.
  - apply IH. intro Hin. apply H. now right.
Qed.

Lemma dict_pop_removes k (d : dict) :
  unique_keys (keys d) = true -> dict_get k (dict_pop k d) = None.
Proof.
  induction d as [| [k' v'] d IH]; intro Hu; [reflexivity |].
  change (unique_keys (k' :: keys d) = true) in Hu.
  apply unique_keys_cons in Hu. destruct Hu as [Hk Hu]. simpl.
  destruct (String.eqb k k') eqn:E.
  - apply String.eqb_eq in E. subst k'. apply dict_get_absent. exact Hk.
  - simpl. rewrite E. apply IH. exact Hu.
Qed.

Lemma Forall_firstn (A : Type) (P : A -> Prop) (l : list A) : forall n,
  Forall P l -> Forall P (firstn n l).
Proof.
  induction l as [| x l IH]; intros [| n] H; simpl; try constructor.
  - inversion H; assumption.
  - apply IH. inversion H; assumption.
Qed.

Section IngestionFacts.
Variables store collection : Type.
Variable db_manager : DbManager store collection.
Variable process_telegrams : string -> exc (list dict).
Variable country_code : string.
Variable count : nat.

Lemma ingest_documents_upserts documents : forall w,
  exists new,
    upserts (snd (ingest_documents db_manager country_code count documents w)) = upserts w ++ new /\
    Forall2 upsert_of (firstn (List.length new) documents)
            (map (@upsert_document collection) new) /\
    (fst (ingest_documents db_manager country_code count documents w) = Ok tt ->
     List.length new = List.length documents).
Proof.
  induction documents as [| document rest IH]; intro w.
  - exists []. simpl. rewrite app_nil_r. repeat split. constructor.
  - simpl.
    destruct (dict_get "id_telegram" document) as [id |] eqn:Hid.
    2:{ exists []. simpl. rewrite app_nil_r. repeat split;
          [constructor | discriminate]. }
    destruct (get_or_create_collection db_manager country_code (the_store w))
      as [[c | e] s].
    2:{ exists []. simpl. rewrite app_nil_r. repeat split;
          [constructor | discriminate]. }
    cbn [the_store record_upsert print put_store stdout upserts].
    destruct (insert_or_update_document db_manager c _ s) as [[u | e] s'].
    2:{ eexists [_]. simpl. repeat split; [| discriminate].
        constructor; [| constructor]. exists id. split; [exact Hid | reflexivity]. }
    match goal with
    | |- context [ingest_documents db_manager country_code count rest ?w'] =>
        set (w2 := w')
    end.
    destruct (IH w2) as [new [Hup [Hall Hlen]]].
    set (call := Build_upsert_call c
                   [("id_telegram", id);
                    ("data", VDict (dict_pop "id_telegram" document))]).
    exists (call :: new). rewrite Hup.
    change (upserts w2) with (upserts w ++ [call]).
    rewrite <- app_assoc. split; [reflexivity |]. split.
    + simpl. constructor; [| exact Hall].
      exists id. split; [exact Hid | reflexivity].
    + intro Hok. simpl. f_equal. apply Hlen. exact Hok.
Qed.

Lemma ingest_documents_lines documents : forall w,
  fst (ingest_documents db_manager country_code count documents w) = Ok tt ->
  processed_lines (stdout (snd (ingest_documents db_manager country_code count documents w)))
  = processed_lines (stdout w)
    ++ repeat (PrintedProcessed country_code count) (List.length documents).
Proof.
  induction documents as [| document rest IH]; intro w.
  - simpl. now rewrite app_nil_r.
  - simpl.
    destruct (dict_get "id_telegram" document) as [id |]; [| discriminate].
    destruct (get_or_create_collection db_manager country_code (the_store w))
      as [[c | e] s]; [| discriminate].
    cbn [the_store record_upsert print put_store stdout upserts].
    destruct (insert_or_update_document db_manager c _ s) as [[u | e] s'];
      [| discriminate].
    match goal with
    | |- context [ingest_documents db_manager country_code count rest ?w'] =>
        set (w2 := w')
    end.
    intro Hok. rewrite IH by exact Hok.
    change (stdout w2)
      with ((stdout w ++ [PrintedDocument
                            [("id_telegram", id);
                             ("data", VDict (dict_pop "id_telegram" document))]])
            ++ [PrintedProcessed country_code count]).
    unfold processed_lines. rewrite !filter_app. simpl.
    now rewrite <- !app_assoc.
Qed.

Lemma ingest_documents_total documents : forall w,
  never_fails db_manager ->
  Forall (fun d => dict_get "id_telegram" d <> None) documents ->
  fst (ingest_documents db_manager country_code count documents w) = Ok tt.
Proof.
  intros w [Hget Hput] Hall. revert w.
  induction Hall as [| document rest Hid Hall IH]; intro w; [reflexivity |].
  simpl. destruct (dict_get "id_telegram" document) as [id |];
    [| contradiction].
  destruct (Hget country_code (the_store w)) as [h Hh].
  destruct (get_or_create_collection db_manager country_code (the_store w))
    as [r s]. simpl in Hh. subst r.
  cbn [the_store record_upsert print put_store stdout upserts].
  match goal with
  | |- context [insert_or_update_document db_manager h
                  [("id_telegram", ?i); ("data", ?d)] s] =>
      pose proof (Hput h i d s) as Hu;
      destruct (insert_or_update_document db_manager h
                  [("id_telegram", i); ("data", d)] s) as [r s']
  end.
  simpl in Hu. subst r. apply IH.
Qed.

End IngestionFacts.

(** The claim C5 as it is worded fails: the processor delivers two records
    and the routine returns [None], not the count 2. *)
Lemma ingestion_does_not_return_the_count :
  (exists documents,
     sample_processor "ua" = Ok documents /\ List.length documents = 2%nat) /\
  fst (download_and_process_telegrams spec_db_manager sample_processor "ua"
         empty_world) = Ok VNone /\
  fst (download_and_process_telegrams spec_db_manager sample_processor "ua"
         empty_world) <> Ok (VInt 2).
Proof.
  split; [eexists; split; reflexivity |]. split; [reflexivity | discriminate].
Qed.

(** C5, amended.  For every country code, [download_and_process_telegrams]
    returns no count: when it ends without an exception its value is [None].
    The number of records received from the processor only appears in the
    line it prints after each upsert, once per record; and the routine does
    end so when every record carries an identifier and the manager does not
    fail. *)
Theorem ingestion_returns_none
    (store collection : Type) (db_manager : DbManager store collection)
    (process_telegrams : string -> exc (list dict))
    (country_code : string) (w : world store collection) :
  (forall v,
     fst (download_and_process_telegrams db_manager process_telegrams
            country_code w) = Ok v -> v = VNone) /\
  (forall documents,
     process_telegrams country_code = Ok documents ->
     fst (download_and_process_telegrams db_manager process_telegrams
            country_code w) = Ok VNone ->
     processed_lines
       (stdout (snd (download_and_process_telegrams db_manager
                       process_telegrams country_code w)))
     = processed_lines (stdout w)
       ++ repeat (PrintedProcessed country_code (List.length documents))
                 (List.length documents)) /\
  (forall documents,
     process_telegrams country_code = Ok documents ->
     Forall (fun d => dict_get "id_telegram" d <> None) documents ->
     never_fails db_manager ->
     fst (download_and_process_telegrams db_manager process_telegrams
            country_code w) = Ok VNone).
Proof.
  unfold download_and_process_telegrams. split; [| split].
  - intros v. destruct (process_telegrams country_code) as [documents | e];
      [| discriminate].
    destruct (ingest_documents _ _ _ _ _) as [[u | e] w']; simpl;
      congruence.
  - intros documents Hp. rewrite Hp.
    pose proof (@ingest_documents_lines _ _ db_manager country_code
                  (List.length documents) documents w) as Hlines.
    destruct (ingest_documents _ _ _ _ _) as [[[] | e] w']; simpl in *;
      [intros _; apply Hlines; reflexivity | discriminate].
  - intros documents Hp Hids Hm. rewrite Hp.
    pose proof (@ingest_documents_total _ _ db_manager country_code
                  (List.length documents) documents w Hm Hids) as Hok.
    destruct (ingest_documents _ _ _ _ _) as [[u | e] w']; simpl in *;
      [reflexivity | discriminate].
Qed.

Lemma spec_db_manager_never_fails : never_fails spec_db_manager.
Proof.
  split.
  - intros c s. exists c. simpl. unfold spec_get_or_create_collection.
    destruct (existsb _ _); reflexivity.
  - intros h id data s. reflexivity.
Qed.

(** An instance: two records for ["ua"]; the value is [None] and the count 2
    is printed twice. *)
Lemma ingestion_returns_none_witness :
  fst (download_and_process_telegrams spec_db_manager sample_processor "ua"
         empty_world) = Ok VNone /\
  processed_lines
    (stdout (snd (download_and_process_telegrams spec_db_manager
                    sample_processor "ua" empty_world)))
  = [PrintedProcessed "ua" 2; PrintedProcessed "ua" 2].
Proof.
  pose proof (@ingestion_returns_none _ _ spec_db_manager sample_processor
                "ua" empty_world) as [_ [Hlines Htotal]].
  assert (fst (download_and_process_telegrams spec_db_manager
                 sample_processor "ua" empty_world) = Ok VNone) as Hret.
  { apply (Htotal _ eq_refl); [| exact spec_db_manager_never_fails].
    repeat constructor; discriminate. }
  split; [exact Hret |].
  exact (Hlines _ eq_refl Hret).
Defined.

(** C8.  For every record the ingestion handles, the document handed to the
    upsert is [{id_telegram, data}]: the identifier of the record once, at
    the top level, and under [data] the record without its [id_telegram]
    key.  The upserts follow the records in order, one per record, and all
    of them when the routine ends without an exception. *)
Theorem upserted_document_shape
    (store collection : Type) (db_manager : DbManager store collection)
    (process_telegrams : string -> exc (list dict))
    (country_code : string) (w : world store collection)
    (documents : list dict) :
  process_telegrams country_code = Ok documents ->
  Forall (fun d => unique_keys (keys d) = true) documents ->
  exists new,
    upserts (snd (download_and_process_telegrams db_manager
                    process_telegrams country_code w))
    = upserts w ++ new /\
    Forall2 upsert_of (firstn (List.length new) documents)
            (map (@upsert_document collection) new) /\
    Forall (fun u =>
              exists id_telegram data,
                upsert_document u
                = [("id_telegram", id_telegram); ("data", VDict data)] /\
                dict_get "id_telegram" data = None) new /\
    (fst (download_and_process_telegrams db_manager process_telegrams
            country_code w) = Ok VNone ->
     List.length new = List.length documents).
Proof.
  intros Hp Hu. unfold download_and_process_telegrams. rewrite Hp.
  destruct (@ingest_documents_upserts _ _ db_manager country_code
              (List.length documents) documents w) as [new [Hup [Hall Hlen]]].
  exists new.
  destruct (ingest_documents _ _ _ _ _) as [[[] | e] w']; simpl in *.
  all: split; [exact Hup |]; split; [exact Hall |]; split;
    [| intro; try discriminate; auto].
  all: clear Hup Hlen Hp.
  all: assert (Forall (fun d => unique_keys (keys d) = true)
                 (firstn (List.length new) documents)) as Hu'
      by (apply Forall_firstn; exact Hu).
  all: clear Hu; revert Hall Hu';
    generalize (firstn (List.length new) documents) as docs.
  all: induction new as [| u new IH]; intros docs Hall Hu;
    [constructor |].
  all: inversion Hall as [| doc w0 docs' ws [id [Hid Hw]] Hrest]; subst.
  all: inversion Hu as [| d0 ds Hd Hds]; subst.
  all: constructor; [| eapply IH; eassumption].
  all: exists id, (dict_pop "id_telegram" doc); split;
    [exact Hw | apply dict_pop_removes; exact Hd].
Qed.

(** An instance: the two records of the sample processor. *)
Lemma upserted_document_shape_witness :
  exists new,
    upserts (snd (download_and_process_telegrams spec_db_manager
                    sample_processor "ua" empty_world))
    = [] ++ new /\
    Forall2 upsert_of
      (firstn (List.length new)
         [[("id_telegram", VStr "3450420249118"); ("station_id", VStr "34504");
           ("hour", VInt 18)];
          [("id_telegram", VStr "3450520249118"); ("station_id", VStr "34505");
           ("hour", VInt 18)]])
      (map (@upsert_document string) new) /\
    Forall (fun u =>
              exists id_telegram data,
                upsert_document u
                = [("id_telegram", id_telegram); ("data", VDict data)] /\
                dict_get "id_telegram" data = None) new /\
    (fst (download_and_process_telegrams spec_db_manager sample_processor
            "ua" empty_world) = Ok VNone ->
     List.length new = 2%nat).
Proof.
  apply (@upserted_document_shape _ _ spec_db_manager sample_processor "ua"
           empty_world _ eq_refl).
  repeat constructor.
Defined.

(** ** C4: the update endpoint *)

Lemma update_first_no_match filter fields docs :
  Forall (fun doc => Mongo.matches filter doc = false) docs ->
  Mongo.update_first filter fields docs = Ok None.
Proof.
  induction 1 as [| doc docs Hdoc Hall IH]; simpl; [reflexivity |].
  rewrite Hdoc, IH. reflexivity.
Qed.

(** The part of the claim C4 that holds: for an identifier no record of the
    collection carries, the endpoint reports "not found" and writes
    nothing. *)
Lemma update_missing_id st name id updates fields :
  valid_collection_name name = true ->
  Mongo.request_error [[("id_telegram", VStr id)];
                       [("$set", VDict (update_fields_of updates))]] = None ->
  Mongo.read_update [("$set", VDict (update_fields_of updates))] = Ok fields ->
  Forall (fun doc => Mongo.matches [("id_telegram", VStr id)] doc = false)
         (Mongo.documents st name) ->
  update_data_in_collection st name id updates = (st, Ok not_found_message).
Proof.
  intros Hname Hsend Hread Hnone.
  unfold update_data_in_collection, Mongo.update_one, Mongo.apply_update.
  cbv zeta. rewrite Hname.
  match goal with
  | |- context [Mongo.request_error ?x] =>
      replace (Mongo.request_error x) with (@None exn)
        by (symmetry; exact Hsend)
  end.
  rewrite Hread. simpl forallb. cbv iota.
  rewrite update_first_no_match by exact Hnone. reflexivity.
Qed.

(** C4 fails on the code.  The record ["3450420249118"] is in the
    collection ["ua"] with [data.hour = 18]; updating its hour to 18 leaves
    it as it was, the store counts no modified document, and the endpoint
    answers "not found" although the record exists. *)
Theorem update_with_same_value_reports_not_found :
  In record_34504 (Mongo.documents sample_store "ua") /\
  dict_get "id_telegram" record_34504 = Some (VStr "3450420249118") /\
  Mongo.update_one sample_store "ua" [("id_telegram", VStr "3450420249118")]
    [("$set", VDict [("data.hour", VInt 18)])]
  = (sample_store,
     Ok {| Mongo.matched_count := 1; Mongo.modified_count := 0 |}) /\
  update_data_in_collection sample_store "ua" "3450420249118"
    [("hour", VInt 18)]
  = (sample_store, Ok not_found_message) /\
  update_data_in_collection sample_store "ua" "3450420249118"
    [("hour", VInt 19)]
  = (Mongo.set_documents sample_store "ua"
       [[("_id", VObjectId 1);
         ("id_telegram", VStr "3450420249118");
         ("data", VDict [("station_id", VStr "34504"); ("year", VInt 2024);
                         ("month", VInt 9); ("day", VInt 1);
                         ("hour", VInt 19);
                         ("temperature", VFloat S754_nan)])];
        record_34505],
     Ok updated_message).
Proof.
  split; [left; reflexivity |]. repeat split.
Qed.

(** ** C9: the projection *)

Lemma split_dots_not_nil s : Mongo.split_dots s <> [].
Proof.
  destruct s as [| c r]; simpl; [discriminate |].
  destruct (Ascii.eqb c "."); [discriminate |].
  destruct (Mongo.split_dots r); discriminate.
Qed.

Lemma split_dots_single s : forall n, Mongo.split_dots s = [n] -> n = s.
Proof.
  induction s as [| c r IH]; intros n H; simpl in H.
  - now injection H as <-.
  - destruct (Ascii.eqb c ".").
    + injection H as _ H. now apply split_dots_not_nil in H.
    + destruct (Mongo.split_dots r) as [| h t] eqn:E;
        [now apply split_dots_not_nil in E |].
      injection H as <- ->. f_equal. now apply IH.
Qed.

Lemma simple_field_path s :
  simple_field s = true ->
  Mongo.split_dots s = [s] /\ Mongo.plain_name s = true /\
  has_char "000" s = false.
Proof.
  unfold simple_field.
  destruct (Mongo.split_dots s) as [| n [| m t]] eqn:E; try discriminate.
  intro Hn. apply split_dots_single in E as E'. subst n.
  apply andb_true_iff in Hn. destruct Hn as [Hp Hz].
  apply negb_true_iff in Hz. now repeat split.
Qed.

Lemma split_dots_projected s :
  Mongo.split_dots (fst (projected s)) = "data" :: Mongo.split_dots s.
Proof.
  unfold projected. cbn [fst append]. cbn [Mongo.split_dots].
  cbn -[Mongo.split_dots].
  destruct (Mongo.split_dots s) as [| h t] eqn:E;
    [now apply split_dots_not_nil in E | reflexivity].
Qed.










Lemma dict_get_map_values (g : value -> value) k (d : dict) :
  dict_get k (map_values g d) = option_map g (dict_get k d).
Proof.
  induction d as [| [k' v'] d IH]; simpl; [reflexivity |].
  destruct (String.eqb k k'); [reflexivity | exact IH].
Qed.


(** A dictionary of which each entry is kept, replaced or dropped. *)
Section Entries.
Variable entry : string * value -> dict.
Hypothesis entry_shape :
  forall kv, entry kv = [] \/ exists v', entry kv = [(fst kv, v')].




End Entries.

(** ** Inclusion projections *)










(** ** The sanitizer and paths *)



(** ** C9: the projection of [filter_telegrams] *)



Lemma documents_are_records st name :
  holds_telegram_records st = true ->
  Forall (fun doc => telegram_record doc = true) (Mongo.documents st name).
Proof.
  unfold holds_telegram_records.
  induction st as [| [n docs] st IH]; simpl; intro H; [constructor |].
  apply andb_true_iff in H. destruct H as [Hdocs Hst].
  destruct (String.eqb name n); [| apply IH; exact Hst].
  apply Forall_forall. rewrite forallb_forall in Hdocs. exact Hdocs.
Qed.





Lemma filter_telegrams_answer db f calls v :
  filter_telegrams db f = (calls, Ok v) ->
  exists names found c0,
    collections_to_query db f = Ok names /\
    query_collections db f names [] [] = (c0, Ok found) /\
    v = answer_for found.
Proof.
  unfold filter_telegrams.
  destruct (collections_to_query db f) as [names | e]; [| discriminate].
  destruct (query_collections db f names [] []) as [c0 [found | e]] eqn:E;
    [| discriminate].
  rewrite answer_for_spec. intros [= _ <-].
  exists names, found, c0. repeat split. exact E.
Qed.






(** * Properties of the rest of the module *)

(** ** The two sanitizers *)

Lemma dict_setitem_absent k v (d : dict) :
  ~ In k (keys d) -> dict_setitem k v d = d ++ [(k, v)].
Proof.
  induction d as [| [k' v'] d IH]; simpl; intro H; [reflexivity |].
  destruct (String.eqb k k') eqn:E.
  - apply String.eqb_eq in E. subst k'. exfalso. apply H. now left.
  - rewrite IH; [reflexivity |]. intro Hin. apply H. now right.
Qed.

Lemma assign_each_fresh (g : value -> value) (items : dict) : forall acc,
  unique_keys (keys items) = true ->
  (forall k, In k (keys acc) -> ~ In k (keys items)) ->
  assign_each g items acc = acc ++ map_values g items.
Proof.
  induction items as [| [k v] items IH]; intros acc Hu Hacc.
  - simpl. now rewrite app_nil_r.
  - change (unique_keys (k :: keys items) = true) in Hu.
    apply unique_keys_cons in Hu. destruct Hu as [Hk Hu].
    unfold assign_each. simpl.
    rewrite dict_setitem_absent.
    2:{ intro Hin. apply (Hacc k Hin). now left. }
    change (assign_each g items (acc ++ [(k, g v)])
            = acc ++ (k, g v) :: map_values g items).
    rewrite IH; [now rewrite <- app_assoc | exact Hu |].
    intros k0 Hin. unfold keys in Hin. rewrite map_app in Hin.
    apply in_app_or in Hin. destruct Hin as [Hin | [<- | []]].
    + intro Hin'. apply (Hacc k0 Hin). now right.
    + exact Hk.
Qed.

Lemma clean_nan_values_dict d :
  unique_keys (keys d) = true ->
  clean_nan_values (VDict d) = VDict (map_values clean_nan_values d).
Proof.
  intro Hu. simpl. f_equal.
  apply (assign_each_fresh clean_nan_values d [] Hu). intros k [].
Qed.


Lemma map_values_fixed (g : value -> value) (d : dict) :
  map_values g d = d <-> Forall (fun kv => g (snd kv) = snd kv) d.
Proof.
  induction d as [| [k v] d IH]; simpl; split; intro H.
  - constructor.
  - reflexivity.
  - injection H as Hv Hd. constructor; [exact Hv | now apply IH].
  - inversion H as [| x l Hv Hd]; subst. simpl in Hv.
    rewrite Hv. f_equal. now apply IH.
Qed.

Lemma map_fixed (A : Type) (g : A -> A) (l : list A) :
  map g l = l <-> Forall (fun x => g x = x) l.
Proof.
  induction l as [| x l IH]; simpl; split; intro H.
  - constructor.
  - reflexivity.
  - injection H as Hx Hl. constructor; [exact Hx | now apply IH].
  - inversion H as [| y r Hx Hl]; subst. rewrite Hx. f_equal. now apply IH.
Qed.

Lemma clean_data_is_finite v :
  wf_value v = true -> finite_floats (clean_data v) = true.
Proof.
  induction v as [| b | z | f | s | n | l IH | d IH] using value_ind;
    intro Hwf; try reflexivity.
  - simpl. rewrite not_json_float_spec.
    destruct (is_inf_or_nan f) eqn:E; simpl; [reflexivity | now rewrite E].
  - apply wf_value_list in Hwf. simpl. apply forallb_forall.
    intros x Hx. apply in_map_iff in Hx. destruct Hx as [y [<- Hy]].
    rewrite Forall_forall in IH, Hwf. auto.
  - apply wf_value_dict in Hwf. destruct Hwf as [Hu Hd].
    rewrite clean_data_dict by exact Hu. simpl. apply forallb_forall.
    intros x Hx. apply in_map_iff in Hx. destruct Hx as [y [<- Hy]].
    rewrite Forall_forall in IH, Hd. simpl. auto.
Qed.

(** X1.  What [clean_data] returns holds no NaN and no infinity, at any
    depth. *)
Theorem clean_data_finite_floats (v : value) :
  wf_value v = true -> finite_floats (clean_data v) = true.
Proof.
  apply clean_data_is_finite.
Qed.

(** An instance: the sample tree. *)
Lemma clean_data_finite_floats_witness :
  wf_value sample_tree = true /\
  finite_floats sample_tree = false /\
  finite_floats (clean_data sample_tree) = true.
Proof.
  split; [reflexivity |]. split; [reflexivity |].
  apply (clean_data_finite_floats sample_tree). reflexivity.
Defined.

Lemma clean_data_fixed v :
  wf_value v = true -> finite_floats v = true -> clean_data v = v.
Proof.
  induction v as [| b | z | f | s | n | l IH | d IH] using value_ind;
    intros Hwf Hfin; try reflexivity.
  - simpl in *. rewrite not_json_float_spec.
    apply negb_true_iff in Hfin. now rewrite Hfin.
  - apply wf_value_list in Hwf. simpl in *. f_equal. apply map_fixed.
    rewrite forallb_forall in Hfin. rewrite Forall_forall in *.
    intros x Hx. auto.
  - apply wf_value_dict in Hwf. destruct Hwf as [Hu Hd].
    rewrite clean_data_dict by exact Hu. f_equal. apply map_values_fixed.
    simpl in Hfin. rewrite forallb_forall in Hfin. rewrite Forall_forall in *.
    intros x Hx. auto.
Qed.

(** X2.  [clean_data] returns its argument unchanged exactly when the
    argument holds no NaN and no infinity. *)
Theorem clean_data_fixed_point (v : value) :
  wf_value v = true ->
  (clean_data v = v <-> finite_floats v = true).
Proof.
  intro Hwf. split.
  - intro E. rewrite <- E. apply clean_data_is_finite. exact Hwf.
  - apply clean_data_fixed. exact Hwf.
Qed.

(** An instance: the sample tree is changed, its cleaned form is not. *)
Lemma clean_data_fixed_point_witness :
  wf_value (clean_data sample_tree) = true /\
  clean_data (clean_data sample_tree) = clean_data sample_tree.
Proof.
  split; [reflexivity |].
  apply (proj2 (@clean_data_fixed_point (clean_data sample_tree) eq_refl)).
  reflexivity.
Defined.

Lemma clean_data_absorbs_clean_nan_values v :
  wf_value v = true -> clean_data (clean_nan_values v) = clean_data v.
Proof.
  induction v as [| b | z | f | s | n | l IH | d IH] using value_ind;
    intro Hwf; try reflexivity.
  - destruct f as [s | s | | s m e]; reflexivity.
  - apply wf_value_list in Hwf. simpl. f_equal. rewrite map_map.
    apply map_ext_in. intros x Hx. rewrite Forall_forall in IH, Hwf. auto.
  - apply wf_value_dict in Hwf. destruct Hwf as [Hu Hd].
    rewrite clean_nan_values_dict by exact Hu.
    rewrite !clean_data_dict by (rewrite ?keys_map_values; exact Hu).
    f_equal. unfold map_values. rewrite map_map. simpl.
    apply map_ext_in. intros x Hx. rewrite Forall_forall in IH, Hd.
    f_equal. auto.
Qed.

Lemma clean_nan_values_fixed v :
  wf_value v = true -> no_nan v = true -> clean_nan_values v = v.
Proof.
  induction v as [| b | z | f | s | n | l IH | d IH] using value_ind;
    intros Hwf Hfin; try reflexivity.
  - simpl in *. apply negb_true_iff in Hfin. now rewrite Hfin.
  - apply wf_value_list in Hwf. simpl in *. f_equal. apply map_fixed.
    rewrite forallb_forall in Hfin. rewrite Forall_forall in *.
    intros x Hx. auto.
  - apply wf_value_dict in Hwf. destruct Hwf as [Hu Hd].
    rewrite clean_nan_values_dict by exact Hu. f_equal.
    apply map_values_fixed.
    simpl in Hfin. rewrite forallb_forall in Hfin. rewrite Forall_forall in *.
    intros x Hx. auto.
Qed.

Lemma finite_floats_no_nan v : finite_floats v = true -> no_nan v = true.
Proof.
  induction v as [| b | z | f | s | n | l IH | d IH] using value_ind;
    intro H; try reflexivity.
  - simpl in *. destruct f; try reflexivity; discriminate.
  - simpl in *. rewrite forallb_forall in *. rewrite Forall_forall in IH.
    intros x Hx. auto.
  - simpl in *. rewrite forallb_forall in *. rewrite Forall_forall in IH.
    intros x Hx. auto.
Qed.


(** X3.  The two sanitizers compose to [clean_data], in either order:
    cleaning NaN first changes nothing of what [clean_data] returns, and
    [clean_nan_values] leaves a tree cleaned by [clean_data] as it is. *)
Theorem sanitizers_compose (v : value) :
  wf_value v = true ->
  clean_data (clean_nan_values v) = clean_data v /\
  clean_nan_values (clean_data v) = clean_data v.
Proof.
  intro Hwf. split.
  - apply clean_data_absorbs_clean_nan_values. exact Hwf.
  - apply clean_nan_values_fixed.
    + apply clean_data_wf. exact Hwf.
    + apply finite_floats_no_nan, clean_data_is_finite. exact Hwf.
Qed.

(** An instance: the sample tree. *)
Lemma sanitizers_compose_witness :
  wf_value sample_tree = true /\
  clean_data (clean_nan_values sample_tree) = clean_data sample_tree /\
  clean_nan_values (clean_data sample_tree) = clean_data sample_tree.
Proof.
  split; [reflexivity |]. apply (sanitizers_compose sample_tree). reflexivity.
Defined.



(** X5.  Cleaning a dictionary commutes with looking a key up: a key of the
    dictionary keeps its place and holds its cleaned value, and a key that
    is absent stays absent. *)
Theorem clean_data_lookup (d : dict) (k : string) :
  unique_keys (keys d) = true ->
  exists d',
    clean_data (VDict d) = VDict d' /\
    keys d' = keys d /\
    dict_get k d' = option_map clean_data (dict_get k d).
Proof.
  intro Hu. exists (map_values clean_data d).
  split; [apply clean_data_dict; exact Hu |].
  split; [apply keys_map_values | apply dict_get_map_values].
Qed.

(** An instance: the temperature NaN of a stored record. *)
Lemma clean_data_lookup_witness :
  exists d',
    clean_data (VDict [("station_id", VStr "34504");
                       ("temperature", VFloat S754_nan)]) = VDict d' /\
    keys d' = ["station_id"; "temperature"] /\
    dict_get "temperature" d' = Some VNone.
Proof.
  apply (@clean_data_lookup [("station_id", VStr "34504");
                             ("temperature", VFloat S754_nan)]
           "temperature" eq_refl).
Defined.

(** ** Dates that [filter_telegrams] reads or cannot read *)







Lemma py_int_before_dash c :
  py_int (String c (String "-" EmptyString)) = Raise ValueError.
Proof.
  unfold py_int. cbn [lstrip].
  destruct (is_space c) eqn:Hs.
  - reflexivity.
  - destruct (Ascii.eqb c "+"); [reflexivity |].
    destruct (Ascii.eqb c "-"); [reflexivity |].
    unfold int_unsigned. destruct (is_digit c); reflexivity.
Qed.

Lemma py_int_only_value_error s e : py_int s = Raise e -> e = ValueError.
Proof.
  unfold py_int.
  match goal with
  | |- context [match ?x with Some _ => _ | None => _ end] => destruct x
  end; congruence.
Qed.

Lemma date_fields_dash_at_eight d :
  (8 <= String.length d)%nat ->
  String.get 7 d = Some "-"%char ->
  date_fields d = Raise ValueError.
Proof.
  intros Hlen Hget.
  destruct d as [| c1 [| c2 [| c3 [| c4 [| c5 [| c6 [| c7 [| c8 r]]]]]]]];
    simpl in Hlen; try lia.
  cbn [String.get] in Hget. injection Hget as ->.
  unfold date_fields, py_slice. cbn [substring Nat.sub].
  replace (substring 0 0 r) with EmptyString by (destruct r; reflexivity).
  rewrite py_int_before_dash. unfold bind.
  destruct (py_int (String c1 (String c2 (String c3 (String c4 EmptyString)))))
    as [y | e1] eqn:E1;
    [| apply py_int_only_value_error in E1; subst; reflexivity].
  destruct (py_int (String c5 (String c6 EmptyString))) as [m | e2] eqn:E2;
    [| apply py_int_only_value_error in E2; subst; reflexivity].
  reflexivity.
Qed.

(** X7.  An ASCII date whose eighth character is a dash, as in every ISO
    date [YYYY-MM-DD], cannot be read: no query is built, no collection is
    asked, and when the targeted names are collection names the answer is
    "no data found" whatever the store holds. *)
Theorem dashed_date_finds_nothing
    (db : Database) (f : TelegramFilter) (d : string) (names : list string) :
  date f = Some d ->
  is_ascii d = true ->
  (8 <= String.length d)%nat ->
  String.get 7 d = Some "-"%char ->
  collections_to_query db f = Ok names ->
  forallb valid_collection_name names = true ->
  build_query f = None /\
  filter_telegrams db f = ([], Ok no_data_found).
Proof.
  intros Hd _ Hlen Hget Hnames Hvalid.
  assert (build_query f = None) as Hq.
  { eapply build_query_unparseable; [exact Hd | exact Hlen |].
    apply date_fields_dash_at_eight; assumption. }
  split; [exact Hq |].
  unfold filter_telegrams. rewrite Hnames.
  rewrite (query_collections_skipped db f Hq).
  rewrite (find_invalid_none names Hvalid). reflexivity.
Qed.

(** An instance: the first of September 2024 in ISO form, for ["ua"]. *)
Lemma dashed_date_finds_nothing_witness :
  filter_telegrams (Mongo.db sample_store)
    (with_date (Some "2024-09-01") ua_evening_filter)
  = ([], Ok no_data_found).
Proof.
  apply (proj2 (@dashed_date_finds_nothing (Mongo.db sample_store)
                  (with_date (Some "2024-09-01") ua_evening_filter)
                  "2024-09-01" ["ua"] eq_refl eq_refl ltac:(simpl; lia)
                  eq_refl eq_refl eq_refl)).
Defined.

Lemma py_int_minus_digit c :
  is_digit c = true ->
  py_int (String "-" (String c EmptyString)) = Ok (- digit_value c).
Proof.
  intro Hc. unfold py_int.
  change (lstrip (String "-" (String c EmptyString)))
    with (String "-" (String c EmptyString)).
  change (Ascii.eqb "-" "+") with false.
  change (Ascii.eqb "-" "-") with true. cbv iota.
  unfold int_unsigned. rewrite Hc. reflexivity.
Qed.

(** X8.  [int] accepts a sign, so the parts of a date may be negative: for a
    date of the form [YYYY-M-D] (eight characters, one digit for the month
    and one for the day) the query asks for the year [YYYY], the month [-M]
    and the day [-D]. *)
Theorem dashed_short_date_is_read_with_signs
    (f : TelegramFilter) (y : string) (m d : ascii) :
  String.length y = 4%nat -> all_digits y = true ->
  is_digit m = true -> is_digit d = true ->
  date f = Some (y ++ String "-" (String m (String "-" (String d EmptyString))))%string ->
  build_query f =
  Some (station_constraint f
        ++ date_constraint (decimal_value 0 y)
                           (- digit_value m) (- digit_value d)
        ++ hour_constraint f).
Proof.
  intros Hlen Hy Hm Hd Hdate.
  destruct y as [| c1 [| c2 [| c3 [| c4 [| c5 r]]]]]; try discriminate.
  eapply build_query_dated; [exact Hdate | simpl; lia |].
  unfold date_fields, py_slice. cbn [append substring Nat.sub].
  rewrite py_int_digits by exact Hy.
  rewrite !py_int_minus_digit by assumption.
  reflexivity.
Qed.

(** An instance: the first of September 2024 written [2024-9-1]. *)
Lemma dashed_short_date_is_read_with_signs_witness :
  build_query (with_date (Some "2024-9-1") empty_filter)
  = Some [("data.year", VInt 2024); ("data.month", VInt (-9));
          ("data.day", VInt (-1))].
Proof.
  apply (@dashed_short_date_is_read_with_signs
           (with_date (Some "2024-9-1") empty_filter) "2024" "9" "1"
           eq_refl eq_refl eq_refl eq_refl eq_refl).
Defined.

(** ** The answer of [filter_telegrams] *)

Lemma query_collections_wf db f :
  (forall n q p rs, find db n q p = Ok rs ->
                    Forall (fun doc => wf_dict doc = true) rs) ->
  forall names results calls calls' found,
    Forall (fun doc => wf_dict doc = true) results ->
    query_collections db f names results calls = (calls', Ok found) ->
    Forall (fun doc => wf_dict doc = true) found.
Proof.
  intros Hdb names.
  induction names as [| n names IH]; intros results calls calls' found Hres H.
  - simpl in H. injection H as _ <-. exact Hres.
  - simpl in H. destruct (build_query f) as [q |].
    2:{ destruct (valid_collection_name n); [| discriminate].
        eapply IH; eassumption. }
    destruct (find db n q (build_projection f)) as [rs | e] eqn:E;
      [| discriminate].
    eapply IH; [| exact H]. apply Forall_app. split; [exact Hres |].
    eapply Hdb. exact E.
Qed.

(** X9.  Whatever the store and the criteria, an answer of
    [filter_telegrams] is either the "no data found" message or a result
    list with at least one record: an empty result list is never returned. *)
Theorem filter_telegrams_never_answers_empty_results
    (db : Database) (f : TelegramFilter) (calls : list find_call) (v : value) :
  filter_telegrams db f = (calls, Ok v) ->
  v = no_data_found \/
  exists r rs, v = VDict [("results", VList (r :: rs))].
Proof.
  intro H. apply filter_telegrams_answer in H.
  destruct H as [names [found [c0 [_ [_ ->]]]]].
  destruct found as [| doc found]; [left; reflexivity |].
  right. simpl. eexists. eexists. reflexivity.
Qed.

(** An instance: the evening filter on the sample store. *)
Lemma filter_telegrams_never_answers_empty_results_witness :
  answer_for [dict_pop "_id" record_34504; dict_pop "_id" record_34505]
  = no_data_found \/
  exists r rs,
    answer_for [dict_pop "_id" record_34504; dict_pop "_id" record_34505]
    = VDict [("results", VList (r :: rs))].
Proof.
  apply (@filter_telegrams_never_answers_empty_results
           (Mongo.db sample_store) ua_evening_filter
           (fst (filter_telegrams (Mongo.db sample_store) ua_evening_filter))
           _ eq_refl).
Defined.

(** X10.  When the store hands out well-formed documents, an answer of
    [filter_telegrams] holds no NaN and no infinity. *)
Theorem filter_telegrams_answer_is_finite
    (db : Database) (f : TelegramFilter) (calls : list find_call) (v : value) :
  (forall n q p rs, find db n q p = Ok rs ->
                    Forall (fun doc => wf_dict doc = true) rs) ->
  filter_telegrams db f = (calls, Ok v) ->
  finite_floats v = true.
Proof.
  intros Hdb H. apply filter_telegrams_answer in H.
  destruct H as [names [found [c0 [_ [Hloop ->]]]]].
  assert (Forall (fun doc => wf_dict doc = true) found) as Hwf.
  { eapply query_collections_wf; [exact Hdb | constructor | exact Hloop]. }
  destruct found as [| doc found]; [reflexivity |].
  unfold answer_for. cbn [finite_floats forallb snd]. rewrite andb_true_r.
  apply clean_data_is_finite. apply wf_value_list.
  rewrite Forall_map. exact Hwf.
Qed.

(** An instance: a store that answers with a record whose temperature is
    NaN. *)
Lemma filter_telegrams_answer_is_finite_witness :
  finite_floats (VDict record_34504) = false /\
  finite_floats (answer_for [record_34504]) = true.
Proof.
  split; [reflexivity |].
  apply (@filter_telegrams_answer_is_finite one_record_db empty_filter
           (fst (filter_telegrams one_record_db empty_filter)) _).
  - intros n q p rs [= <-]. repeat constructor.
  - reflexivity.
Defined.

(** ** Stored records and their identifiers *)

Lemma telegram_record_shape doc :
  telegram_record doc = true ->
  exists n s d,
    doc = [("_id", VObjectId n); ("id_telegram", VStr s); ("data", VDict d)]
    /\ wf_value (VDict d) = true.
Proof.
  unfold telegram_record. intro H.
  destruct doc as [| [k1 [| | | | | n | |]] [| [k2 [| | | | s | | |]]
                     [| [k3 [| | | | | | | d]] [| ? ?]]]];
    try discriminate.
  apply andb_true_iff in H. destruct H as [H Hwf].
  apply andb_true_iff in H. destruct H as [H H3].
  apply andb_true_iff in H. destruct H as [H1 H2].
  apply String.eqb_eq in H1, H2, H3. subst k1 k2 k3.
  exists n, s, d. split; [reflexivity |].
  unfold wf_dict in Hwf. cbn [wf_value forallb snd map] in Hwf.
  apply andb_true_iff in Hwf. destruct Hwf as [_ Hwf].
  rewrite andb_true_r in Hwf. exact Hwf.
Qed.

Lemma telegram_record_plain_id doc :
  telegram_record doc = true -> plain_id doc = true.
Proof.
  intro H. apply telegram_record_shape in H.
  destruct H as [n [s [d [-> _]]]]. reflexivity.
Qed.

Lemma matches_id doc id :
  plain_id doc = true ->
  Mongo.matches [("id_telegram", VStr id)] doc = has_id id doc.
Proof.
  unfold plain_id, has_id, Mongo.matches. cbn [forallb fst snd].
  change (Mongo.split_dots "id_telegram") with ["id_telegram"].
  cbn [Mongo.path_matches]. rewrite andb_true_r.
  destruct (dict_get "id_telegram" doc) as [[| | | | s | | |] |];
    try discriminate; intros _; [| reflexivity].
  unfold Mongo.leaf_matches, Mongo.query_eq. cbn [Mongo.value_eqb].
  rewrite !orb_false_r. apply String.eqb_sym.
Qed.

Lemma find_ext_in (A : Type) (p q : A -> bool) (l : list A) :
  Forall (fun x => p x = q x) l -> List.find p l = List.find q l.
Proof.
  induction 1 as [| x l Hx Hl IH]; simpl; [reflexivity |].
  rewrite Hx, IH. reflexivity.
Qed.

Lemma find_none_filter (A : Type) (p : A -> bool) (l : list A) :
  List.find p l = None <-> filter p l = [].
Proof.
  induction l as [| x l IH]; simpl; [tauto |].
  destruct (p x); [split; discriminate | exact IH].
Qed.

Lemma documents_set_same st name docs :
  Mongo.documents (Mongo.set_documents st name docs) name = docs.
Proof.
  induction st as [| [n ds] st IH]; simpl.
  - now rewrite String.eqb_refl.
  - destruct (String.eqb name n) eqn:E; simpl; rewrite E; [reflexivity | exact IH].
Qed.

Lemma documents_set_other st name name' docs :
  name' <> name ->
  Mongo.documents (Mongo.set_documents st name docs) name'
  = Mongo.documents st name'.
Proof.
  intro Hne. induction st as [| [n ds] st IH]; simpl.
  - apply String.eqb_neq in Hne. now rewrite Hne.
  - destruct (String.eqb name n) eqn:E; simpl.
    + apply String.eqb_eq in E. subst n.
      apply String.eqb_neq in Hne. now rewrite Hne.
    + destruct (String.eqb name' n); [reflexivity | exact IH].
Qed.

Lemma documents_plain st name :
  holds_telegram_records st = true ->
  Forall (fun doc => plain_id doc = true) (Mongo.documents st name).
Proof.
  intro H. eapply Forall_impl; [| apply documents_are_records; exact H].
  intros doc. apply telegram_record_plain_id.
Qed.

(** ** The lookup endpoint *)

Lemma get_data_spec st name id :
  Forall (fun doc => plain_id doc = true) (Mongo.documents st name) ->
  get_data_from_collection st name id
  = if valid_collection_name name then
      match first_with_id st name id with
      | None => Ok absent_message
      | Some doc =>
          match render_error (clean_data (VDict (dict_pop "_id" doc))) with
          | Some e => Raise e
          | None => Ok (clean_data (VDict (dict_pop "_id" doc)))
          end
      end
    else Raise (InvalidName name).
Proof.
  intro Hall. unfold get_data_from_collection, MongoCollection.find_one,
    first_with_id.
  destruct (valid_collection_name name); [| reflexivity].
  change (Mongo.request_error [[("id_telegram", VStr id)];
                               [("_id", VBool false)]])
    with (@None exn). cbv iota.
  change (forallb _ [("id_telegram", VStr id)]) with true. cbv iota.
  change (Mongo.projector [("_id", VBool false)])
    with (Ok (A := dict -> dict) (fun doc => dict_pop "_id" doc)).
  unfold bind.
  rewrite (@find_ext_in _ (Mongo.matches [("id_telegram", VStr id)])
             (has_id id)).
  - destruct (List.find _ _); reflexivity.
  - eapply Forall_impl; [| exact Hall]. intros doc. apply matches_id.
Qed.

Lemma first_error_none (A : Type) (g : A -> option exn) (l : list A) :
  Forall (fun x => g x = None) l -> Mongo.first_error g l = None.
Proof.
  induction 1 as [| x l Hx Hl IH]; simpl; [reflexivity |].
  now rewrite Hx.
Qed.









(** ** The delete endpoint *)

Lemma has_id_functional doc id id' :
  has_id id doc = true -> has_id id' doc = true -> id' = id.
Proof.
  unfold has_id.
  destruct (dict_get "id_telegram" doc) as [[| | | | s | | |] |];
    try discriminate.
  intros H H'. apply String.eqb_eq in H, H'. congruence.
Qed.

Lemma remove_first_none id docs :
  Forall (fun doc => plain_id doc = true) docs ->
  filter (has_id id) docs = [] ->
  MongoCollection.remove_first [("id_telegram", VStr id)] docs = None.
Proof.
  induction 1 as [| doc docs Hdoc Hall IH];
    cbn [MongoCollection.remove_first filter]; [reflexivity |].
  rewrite matches_id by exact Hdoc.
  destruct (has_id id doc); [discriminate |].
  intro H. rewrite IH by exact H. reflexivity.
Qed.

Lemma remove_first_some id docs :
  Forall (fun doc => plain_id doc = true) docs ->
  filter (has_id id) docs <> [] ->
  exists docs',
    MongoCollection.remove_first [("id_telegram", VStr id)] docs = Some docs'
    /\ List.length docs = S (List.length docs')
    /\ List.length (filter (has_id id) docs)
       = S (List.length (filter (has_id id) docs'))
    /\ (forall id', id' <> id ->
          List.find (has_id id') docs' = List.find (has_id id') docs)
    /\ (forall P : dict -> Prop, Forall P docs -> Forall P docs').
Proof.
  induction 1 as [| doc docs Hdoc Hall IH];
    cbn [MongoCollection.remove_first filter]; [congruence |].
  rewrite matches_id by exact Hdoc.
  destruct (has_id id doc) eqn:E.
  - intros _. exists docs. repeat split.
    + intros id' Hne. simpl. destruct (has_id id' doc) eqn:E'; [| reflexivity].
      exfalso. apply Hne. eapply has_id_functional; eassumption.
    + intros P HP. inversion HP; assumption.
  - intro Hne. destruct (IH Hne) as [docs' [-> [Hlen [Hcount [Hfind HP]]]]].
    exists (doc :: docs'). simpl. rewrite E. repeat split.
    + now rewrite Hlen.
    + exact Hcount.
    + intros id' Hid'. rewrite (Hfind id' Hid'). reflexivity.
    + intros P HP'. inversion HP'; subst. constructor; [assumption |].
      apply HP. assumption.
Qed.

Lemma get_data_same_documents st st' name id :
  Mongo.documents st' name = Mongo.documents st name ->
  get_data_from_collection st' name id = get_data_from_collection st name id.
Proof.
  intro E. unfold get_data_from_collection, MongoCollection.find_one.
  rewrite E. reflexivity.
Qed.

Lemma delete_data_spec st name id :
  delete_data_from_collection st name id
  = if valid_collection_name name then
      match MongoCollection.remove_first [("id_telegram", VStr id)]
              (Mongo.documents st name) with
      | Some docs => (Mongo.set_documents st name docs, Ok deleted_message)
      | None => (st, Ok not_found_message)
      end
    else (st, Raise (InvalidName name)).
Proof.
  unfold delete_data_from_collection, MongoCollection.delete_one.
  destruct (valid_collection_name name); [| reflexivity].
  change (Mongo.request_error [[("id_telegram", VStr id)]])
    with (@None exn). cbv iota.
  change (forallb _ [("id_telegram", VStr id)]) with true. cbv iota.
  destruct (MongoCollection.remove_first _ _); reflexivity.
Qed.

(** X12.  On a store of telegram records and for a collection name, the
    delete endpoint reports success exactly when a record of the collection
    carries the identifier.  Then it removes one such record and no other
    document; when there is none it leaves the store as it is and answers
    "not found". *)
Theorem delete_data_answers
    (st : Mongo.state) (collection_name id_teleg : string) :
  holds_telegram_records st = true ->
  valid_collection_name collection_name = true ->
  (count_id st collection_name id_teleg = 0%nat ->
   delete_data_from_collection st collection_name id_teleg
   = (st, Ok not_found_message)) /\
  (count_id st collection_name id_teleg <> 0%nat ->
   snd (delete_data_from_collection st collection_name id_teleg)
   = Ok deleted_message /\
   S (size_of (fst (delete_data_from_collection st collection_name id_teleg))
        collection_name)
   = size_of st collection_name /\
   S (count_id (fst (delete_data_from_collection st collection_name id_teleg))
        collection_name id_teleg)
   = count_id st collection_name id_teleg).
Proof.
  intros Hst Hname.
  pose proof (@documents_plain st collection_name Hst) as Hplain.
  rewrite delete_data_spec, Hname. unfold count_id, size_of. split.
  - intro H. rewrite remove_first_none; [reflexivity | exact Hplain |].
    destruct (filter _ _); [reflexivity | discriminate].
  - intro H.
    destruct (@remove_first_some id_teleg _ Hplain) as [docs' [-> [Hl [Hc _]]]].
    { intro E. apply H. now rewrite E. }
    cbn [fst snd]. rewrite documents_set_same. repeat split; congruence.
Qed.

(** An instance: deleting the record of station 34504 from ["ua"]. *)
Lemma delete_data_answers_witness :
  snd (delete_data_from_collection sample_store "ua" "3450420249118")
  = Ok deleted_message /\
  S (size_of (fst (delete_data_from_collection sample_store "ua"
                     "3450420249118")) "ua") = 2%nat /\
  S (count_id (fst (delete_data_from_collection sample_store "ua"
                      "3450420249118")) "ua" "3450420249118") = 1%nat.
Proof.
  apply (proj2 (@delete_data_answers sample_store "ua" "3450420249118"
                  eq_refl eq_refl)).
  discriminate.
Defined.

(** X13.  Delete, then look up: for a collection name, when at most one
    record of the collection carries the identifier, after the delete
    endpoint the lookup endpoint answers "no data for this period" for
    it. *)
Theorem delete_then_get
    (st : Mongo.state) (collection_name id_teleg : string) :
  holds_telegram_records st = true ->
  valid_collection_name collection_name = true ->
  (count_id st collection_name id_teleg <= 1)%nat ->
  get_data_from_collection
    (fst (delete_data_from_collection st collection_name id_teleg))
    collection_name id_teleg
  = Ok absent_message.
Proof.
  intros Hst Hname Hcount.
  pose proof (@documents_plain st collection_name Hst) as Hplain.
  rewrite delete_data_spec, Hname. unfold count_id in Hcount.
  destruct (filter (has_id id_teleg) (Mongo.documents st collection_name))
    as [| x l] eqn:E.
  - rewrite remove_first_none by assumption. cbn [fst].
    rewrite get_data_spec by exact Hplain. rewrite Hname.
    unfold first_with_id.
    rewrite (proj2 (find_none_filter _ _) E). reflexivity.
  - destruct (@remove_first_some id_teleg _ Hplain)
      as [docs' [-> [_ [Hc [_ HP]]]]]; [congruence |].
    cbn [fst]. rewrite get_data_spec
      by (rewrite documents_set_same; apply HP; exact Hplain).
    rewrite Hname.
    unfold first_with_id. rewrite documents_set_same.
    rewrite (proj2 (find_none_filter _ _)); [reflexivity |].
    rewrite E in Hc. simpl in *.
    destruct (filter (has_id id_teleg) docs'); [reflexivity | simpl in *; lia].
Qed.

(** An instance: the record of station 34504. *)
Lemma delete_then_get_witness :
  get_data_from_collection sample_store "ua" "3450420249118"
  <> Ok absent_message /\
  get_data_from_collection
    (fst (delete_data_from_collection sample_store "ua" "3450420249118"))
    "ua" "3450420249118"
  = Ok absent_message.
Proof.
  split; [discriminate |].
  apply (@delete_then_get sample_store "ua" "3450420249118" eq_refl eq_refl).
  apply Nat.leb_le. reflexivity.
Defined.

(** X14.  Deleting a record leaves every other lookup as it was: a lookup
    in another collection, or of another identifier, has the same answer
    before and after. *)
Theorem delete_keeps_other_records
    (st : Mongo.state) (collection_name id_teleg : string)
    (other_collection other_id : string) :
  holds_telegram_records st = true ->
  other_collection <> collection_name \/ other_id <> id_teleg ->
  get_data_from_collection
    (fst (delete_data_from_collection st collection_name id_teleg))
    other_collection other_id
  = get_data_from_collection st other_collection other_id.
Proof.
  intros Hst Hother.
  pose proof (@documents_plain st collection_name Hst) as Hplain.
  rewrite delete_data_spec.
  destruct (valid_collection_name collection_name); [| reflexivity].
  destruct (filter (has_id id_teleg) (Mongo.documents st collection_name))
    as [| x l] eqn:E.
  - rewrite remove_first_none by assumption. reflexivity.
  - destruct (@remove_first_some id_teleg _ Hplain)
      as [docs' [-> [_ [_ [Hfind HP]]]]]; [congruence |].
    cbn [fst].
    destruct (String.eqb other_collection collection_name) eqn:Ec.
    + apply String.eqb_eq in Ec. subst other_collection.
      destruct Hother as [Hc | Hid]; [congruence |].
      rewrite !get_data_spec;
        [| exact Hplain
         | rewrite documents_set_same; apply HP; exact Hplain].
      unfold first_with_id. rewrite documents_set_same.
      rewrite (Hfind other_id Hid). reflexivity.
    + apply String.eqb_neq in Ec. apply get_data_same_documents.
      apply documents_set_other. exact Ec.
Qed.

(** An instance: the record of station 34505 after deleting that of
    station 34504. *)
Lemma delete_keeps_other_records_witness :
  get_data_from_collection
    (fst (delete_data_from_collection sample_store "ua" "3450420249118"))
    "ua" "3450520249118"
  = get_data_from_collection sample_store "ua" "3450520249118".
Proof.
  apply (@delete_keeps_other_records sample_store "ua" "3450420249118"
           "ua" "3450520249118" eq_refl).
  right. discriminate.
Defined.

(** ** The update endpoint *)

Lemma dict_get_setitem_other k k' v (d : dict) :
  k <> k' -> dict_get k (dict_setitem k' v d) = dict_get k d.
Proof.
  intro Hne. induction d as [| [k0 v0] d IH]; simpl.
  - apply String.eqb_neq in Hne. now rewrite Hne.
  - destruct (String.eqb k' k0) eqn:E; simpl.
    + apply String.eqb_eq in E. subst k0.
      apply String.eqb_neq in Hne. now rewrite Hne.
    + destruct (String.eqb k k0); [reflexivity | exact IH].
Qed.




Lemma split_dots_data_key k :
  Mongo.split_dots (data_key k) = "data" :: Mongo.split_dots k.
Proof.
  exact (split_dots_projected k).
Qed.

Lemma Forall_setitem (P : string * value -> Prop) k v (d : dict) :
  Forall P d -> P (k, v) -> Forall P (dict_setitem k v d).
Proof.
  intros Hd Hkv. induction Hd as [| [k0 v0] d H0 Hd IH];
    cbn [dict_setitem].
  - constructor; [exact Hkv | constructor].
  - destruct (String.eqb k k0); constructor; assumption.
Qed.

Lemma update_fields_keys updates :
  Forall (fun kv => exists k, fst kv = data_key k) (update_fields_of updates).
Proof.
  unfold update_fields_of.
  assert (forall acc : dict,
            Forall (fun kv => exists k, fst kv = data_key k) acc ->
            Forall (fun kv => exists k, fst kv = data_key k)
                   (fold_left
                      (fun (acc : dict) (kv : string * value) =>
                         dict_setitem ("data." ++ fst kv) (snd kv) acc)
                      updates acc)) as H.
  { induction updates as [| [k v] updates IH]; intros acc Hacc; [exact Hacc |].
    cbn [fold_left]. apply IH. apply Forall_setitem; [exact Hacc |].
    exists k. reflexivity. }
  apply H. constructor.
Qed.

Lemma set_path_keeps_id k v doc doc' :
  Mongo.set_path (Mongo.split_dots (data_key k)) v doc = Ok doc' ->
  dict_get "id_telegram" doc' = dict_get "id_telegram" doc.
Proof.
  rewrite split_dots_data_key.
  destruct (Mongo.split_dots k) as [| k1 rest] eqn:E;
    [now apply split_dots_not_nil in E |].
  cbn [Mongo.set_path].
  destruct (dict_get "data" doc) as [[| | | | | | | d] |]; try discriminate.
  - match goal with
    | |- bind ?m _ = _ -> _ => destruct m as [d' | e]
    end; unfold bind; [| discriminate].
    intros [= <-]. apply dict_get_setitem_other. discriminate.
  - intros [= <-]. apply dict_get_setitem_other. discriminate.
Qed.

Lemma set_fields_keeps_id fields : forall doc doc',
  Forall (fun kv => exists k, fst kv = data_key k) fields ->
  Mongo.set_fields fields doc = Ok doc' ->
  dict_get "id_telegram" doc' = dict_get "id_telegram" doc.
Proof.
  induction fields as [| [key v] fields IH]; intros doc doc' Hkeys H.
  - simpl in H. now injection H as <-.
  - inversion Hkeys as [| x l [k Hk] Hrest]; subst. simpl in Hk. subst key.
    cbn [Mongo.set_fields] in H. unfold bind in H.
    destruct (Mongo.set_path _ v doc) as [doc1 | e] eqn:E; [| discriminate].
    rewrite (IH doc1 doc' Hrest H). eapply set_path_keeps_id. exact E.
Qed.

Lemma update_first_in_place id fields : forall docs docs' changed,
  Forall (fun kv => exists k, fst kv = data_key k) fields ->
  Mongo.update_first [("id_telegram", VStr id)] fields docs
  = Ok (Some (docs', changed)) ->
  updated_in_place id docs docs' /\ docs <> [].
Proof.
  unfold updated_in_place.
  induction docs as [| doc docs IH]; intros docs' changed Hkeys H.
  - discriminate.
  - split; [| discriminate]. cbn [Mongo.update_first] in H.
    destruct (Mongo.matches [("id_telegram", VStr id)] doc) eqn:Em.
    + unfold bind in H.
      destruct (Mongo.set_fields fields doc) as [doc' | e] eqn:Es;
        [| discriminate].
      injection H as <- _. constructor.
      * split; [eapply set_fields_keeps_id; eassumption | congruence].
      * clear. induction docs; constructor; auto.
    + unfold bind in H.
      destruct (Mongo.update_first _ fields docs) as [[[ds ch] |] | e] eqn:Eu;
        try discriminate.
      simpl in H. injection H as <- _.
      constructor; [split; [reflexivity | intros _; reflexivity] |].
      apply (IH ds ch Hkeys eq_refl).
Qed.

Lemma read_update_fields fields fields' :
  Mongo.read_update [("$set", VDict fields)] = Ok fields' -> fields' = fields.
Proof.
  unfold Mongo.read_update.
  change (String.eqb "$set" "$set") with true. cbv iota.
  destruct (_ && _); [now intros [= <-] | discriminate].
Qed.

Lemma update_data_store st name id updates :
  fst (update_data_in_collection st name id updates) = st \/
  exists docs',
    fst (update_data_in_collection st name id updates)
    = Mongo.set_documents st name docs' /\
    updated_in_place id (Mongo.documents st name) docs' /\
    Mongo.documents st name <> [].
Proof.
  unfold update_data_in_collection, Mongo.update_one, Mongo.apply_update.
  destruct (valid_collection_name name); [| now left].
  destruct (Mongo.request_error _); [now left |].
  destruct (Mongo.read_update _) as [fields | e] eqn:Er; [| now left].
  apply read_update_fields in Er. subst fields.
  change (forallb _ [("id_telegram", VStr id)]) with true. cbv iota.
  destruct (Mongo.update_first _ _ _) as [[[docs' changed] |] | e] eqn:Eu;
    try (now left).
  destruct changed; [| now left].
  right. exists docs'. split; [reflexivity |].
  eapply update_first_in_place; [apply update_fields_keys | exact Eu].
Qed.

Lemma documents_nonempty_in st name :
  Mongo.documents st name <> [] -> In name (Mongo.collection_names st).
Proof.
  induction st as [| [n ds] st IH]; simpl; [congruence |].
  destruct (String.eqb name n) eqn:E.
  - apply String.eqb_eq in E. subst n. now left.
  - intro H. right. apply IH. exact H.
Qed.

Lemma names_set_documents st name docs :
  In name (Mongo.collection_names st) ->
  Mongo.collection_names (Mongo.set_documents st name docs)
  = Mongo.collection_names st.
Proof.
  induction st as [| [n ds] st IH]; simpl; [tauto |].
  destruct (String.eqb name n) eqn:E; [reflexivity |].
  intros [H | H].
  - subst n. now rewrite String.eqb_refl in E.
  - simpl. f_equal. apply IH. exact H.
Qed.

Lemma has_id_same_id id a b :
  dict_get "id_telegram" b = dict_get "id_telegram" a ->
  has_id id b = has_id id a.
Proof.
  unfold has_id. now intros ->.
Qed.

Lemma updated_in_place_count id id' before after :
  updated_in_place id before after ->
  List.length after = List.length before /\
  List.length (filter (has_id id') after)
  = List.length (filter (has_id id') before).
Proof.
  induction 1 as [| a b before after [Hid _] Hall [IHl IHc]]; simpl;
    [split; reflexivity |].
  rewrite (has_id_same_id id' a b Hid), IHl.
  split; [reflexivity |].
  destruct (has_id id' a); simpl; now rewrite IHc.
Qed.

(** X15.  The update endpoint neither adds nor removes anything: whatever
    the identifier and the fields, every collection has as many documents
    afterwards as before, as many of them with any given identifier, and
    the store has the same collections. *)
Theorem update_keeps_the_documents
    (st : Mongo.state) (collection_name id_teleg : string)
    (dynamic_updates : dict) (other_collection other_id : string) :
  size_of (fst (update_data_in_collection st collection_name id_teleg
                  dynamic_updates)) other_collection
  = size_of st other_collection /\
  count_id (fst (update_data_in_collection st collection_name id_teleg
                   dynamic_updates)) other_collection other_id
  = count_id st other_collection other_id /\
  Mongo.collection_names
    (fst (update_data_in_collection st collection_name id_teleg
            dynamic_updates))
  = Mongo.collection_names st.
Proof.
  destruct (update_data_store st collection_name id_teleg dynamic_updates)
    as [-> | [docs' [-> [Hplace Hne]]]]; [repeat split |].
  unfold size_of, count_id. split; [| split].
  - destruct (String.eqb other_collection collection_name) eqn:E.
    + apply String.eqb_eq in E. subst other_collection.
      rewrite documents_set_same.
      apply (updated_in_place_count other_id Hplace).
    + apply String.eqb_neq in E. now rewrite documents_set_other.
  - destruct (String.eqb other_collection collection_name) eqn:E.
    + apply String.eqb_eq in E. subst other_collection.
      rewrite documents_set_same.
      apply (updated_in_place_count other_id Hplace).
    + apply String.eqb_neq in E. now rewrite documents_set_other.
  - apply names_set_documents, documents_nonempty_in. exact Hne.
Qed.

Lemma no_record_no_match st name id :
  holds_telegram_records st = true ->
  count_id st name id = 0%nat ->
  Forall (fun doc => Mongo.matches [("id_telegram", VStr id)] doc = false)
         (Mongo.documents st name).
Proof.
  intros Hst Hcount. pose proof (@documents_plain st name Hst) as Hplain.
  unfold count_id in Hcount.
  induction Hplain as [| doc docs Hdoc Hall IH]; [constructor |].
  simpl in Hcount. destruct (has_id id doc) eqn:E; [discriminate |].
  constructor; [| apply IH; exact Hcount].
  rewrite matches_id by exact Hdoc. exact E.
Qed.

(** X16.  The update endpoint creates nothing: on a store of telegram
    records, when no record of the collection carries the identifier the
    store is left as it is and the answer is not "updated" (a success
    answer implies that a record with the identifier existed). *)
Theorem update_needs_a_record
    (st : Mongo.state) (collection_name id_teleg : string)
    (dynamic_updates : dict) :
  holds_telegram_records st = true ->
  count_id st collection_name id_teleg = 0%nat ->
  fst (update_data_in_collection st collection_name id_teleg dynamic_updates)
  = st /\
  snd (update_data_in_collection st collection_name id_teleg dynamic_updates)
  <> Ok updated_message.
Proof.
  intros Hst Hcount.
  pose proof (@no_record_no_match st collection_name id_teleg Hst Hcount)
    as Hno.
  unfold update_data_in_collection, Mongo.update_one, Mongo.apply_update.
  destruct (valid_collection_name collection_name);
    [| split; [reflexivity | discriminate]].
  destruct (Mongo.request_error _); [split; [reflexivity | discriminate] |].
  destruct (Mongo.read_update _) as [fields | e];
    [| split; [reflexivity | discriminate]].
  change (forallb _ [("id_telegram", VStr id_teleg)]) with true. cbv iota.
  rewrite update_first_no_match by exact Hno.
  split; [reflexivity | discriminate].
Qed.

(** An instance: an identifier that ["ua"] does not hold. *)
Lemma update_needs_a_record_witness :
  fst (update_data_in_collection sample_store "ua" "0000020249118"
         [("hour", VInt 21)]) = sample_store /\
  snd (update_data_in_collection sample_store "ua" "0000020249118"
         [("hour", VInt 21)]) <> Ok updated_message.
Proof.
  apply (@update_needs_a_record sample_store "ua" "0000020249118"
           [("hour", VInt 21)] eq_refl eq_refl).
Defined.

Lemma find_updated_in_place id id' before after :
  id' <> id ->
  Forall (fun doc => plain_id doc = true) before ->
  updated_in_place id before after ->
  List.find (has_id id') after = List.find (has_id id') before.
Proof.
  intros Hne Hplain H. unfold updated_in_place in H.
  induction H as [| a b before after [Hid Hkeep] Hall IH]; [reflexivity |].
  inversion Hplain as [| x l Ha Hrest]; subst. simpl.
  rewrite (has_id_same_id id' a b Hid).
  destruct (has_id id' a) eqn:E; [| apply IH; exact Hrest].
  f_equal. apply Hkeep. rewrite matches_id by exact Ha.
  destruct (has_id id a) eqn:E'; [| reflexivity].
  exfalso. apply Hne. eapply has_id_functional; eassumption.
Qed.

Lemma plain_updated_in_place id before after :
  Forall (fun doc => plain_id doc = true) before ->
  updated_in_place id before after ->
  Forall (fun doc => plain_id doc = true) after.
Proof.
  intros Hplain H. unfold updated_in_place in H.
  induction H as [| a b before after [Hid _] Hall IH]; [constructor |].
  inversion Hplain as [| x l Ha Hrest]; subst.
  constructor; [| apply IH; exact Hrest].
  unfold plain_id in *. now rewrite Hid.
Qed.

(** X17.  Updating a record leaves every other lookup as it was: on a store
    of telegram records, a lookup in another collection, or of another
    identifier, has the same answer before and after the update, whatever
    the fields sent. *)
Theorem update_keeps_other_records
    (st : Mongo.state) (collection_name id_teleg : string)
    (dynamic_updates : dict) (other_collection other_id : string) :
  holds_telegram_records st = true ->
  other_collection <> collection_name \/ other_id <> id_teleg ->
  get_data_from_collection
    (fst (update_data_in_collection st collection_name id_teleg
            dynamic_updates))
    other_collection other_id
  = get_data_from_collection st other_collection other_id.
Proof.
  intros Hst Hother.
  pose proof (@documents_plain st collection_name Hst) as Hplain.
  destruct (update_data_store st collection_name id_teleg dynamic_updates)
    as [-> | [docs' [-> [Hplace _]]]]; [reflexivity |].
  destruct (String.eqb other_collection collection_name) eqn:Ec.
  - apply String.eqb_eq in Ec. subst other_collection.
    destruct Hother as [Hc | Hid]; [congruence |].
    rewrite !get_data_spec;
      [| exact Hplain
       | rewrite documents_set_same;
         eapply plain_updated_in_place; eassumption].
    unfold first_with_id. rewrite documents_set_same.
    rewrite (@find_updated_in_place id_teleg other_id _ docs' Hid Hplain Hplace).
    reflexivity.
  - apply String.eqb_neq in Ec. apply get_data_same_documents.
    apply documents_set_other. exact Ec.
Qed.

(** An instance: the record of station 34505 after an update of that of
    station 34504. *)
Lemma update_keeps_other_records_witness :
  get_data_from_collection
    (fst (update_data_in_collection sample_store "ua" "3450420249118"
            [("hour", VInt 21)]))
    "ua" "3450520249118"
  = get_data_from_collection sample_store "ua" "3450520249118".
Proof.
  apply (@update_keeps_other_records sample_store "ua" "3450420249118"
           [("hour", VInt 21)] "ua" "3450520249118" eq_refl).
  right. discriminate.
Defined.

Lemma float_same_eq a b : Mongo.float_same a b = true -> a = b.
Proof.
  destruct a as [s1 | s1 | | s1 m1 e1], b as [s2 | s2 | | s2 m2 e2];
    simpl; try discriminate; try reflexivity.
  - intro H. apply Bool.eqb_prop in H. now subst.
  - intro H. apply Bool.eqb_prop in H. now subst.
  - intro H. apply andb_true_iff in H. destruct H as [H He].
    apply andb_true_iff in H. destruct H as [Hs Hm].
    apply Bool.eqb_prop in Hs. apply Pos.eqb_eq in Hm. apply Z.eqb_eq in He.
    now subst.
Qed.

Lemma list_eqb_eq (A : Type) (eq : A -> A -> bool) (l1 : list A) :
  Forall (fun x => forall y, eq x y = true -> x = y) l1 ->
  forall l2, Mongo.list_eqb eq l1 l2 = true -> l1 = l2.
Proof.
  induction 1 as [| x l1 Hx Hl IH]; intros [| y l2]; simpl;
    try discriminate; [reflexivity |].
  intro H. apply andb_true_iff in H. destruct H as [Hxy Hrest].
  f_equal; [apply Hx; exact Hxy | apply IH; exact Hrest].
Qed.

Lemma value_eqb_eq a : forall b, Mongo.value_eqb a b = true -> a = b.
Proof.
  induction a as [| x | x | x | x | x | l IH | d IH] using value_ind;
    intros [| y | y | y | y | y | l' | d']; simpl; try discriminate;
    intro H; try reflexivity.
  - apply Bool.eqb_prop in H. now subst.
  - apply Z.eqb_eq in H. now subst.
  - apply float_same_eq in H. now subst.
  - apply String.eqb_eq in H. now subst.
  - apply N.eqb_eq in H. now subst.
  - f_equal. eapply list_eqb_eq; [| exact H].
    eapply Forall_impl; [| exact IH]. intros v Hv y Hy. apply Hv. exact Hy.
  - f_equal. eapply list_eqb_eq; [| exact H].
    eapply Forall_impl; [| exact IH].
    intros [k v] Hv [k' v'] Hy. simpl in *.
    apply andb_true_iff in Hy. destruct Hy as [Hk Hvv].
    apply String.eqb_eq in Hk. subst k'. f_equal. apply Hv. exact Hvv.
Qed.

Lemma first_match_split (A : Type) (p : A -> bool) (l : list A) :
  filter p l <> [] ->
  exists pre x post,
    l = pre ++ x :: post /\ p x = true /\ Forall (fun y => p y = false) pre.
Proof.
  induction l as [| y l IH]; simpl; [congruence |].
  destruct (p y) eqn:E.
  - intros _. exists [], y, l. split; [reflexivity |].
    split; [exact E | constructor].
  - intro H. destruct (IH H) as [pre [x [post [-> [Hx Hpre]]]]].
    exists (y :: pre), x, post. repeat split; [exact Hx |].
    constructor; assumption.
Qed.


Lemma update_first_split filter fields pre x x' post :
  Forall (fun y => Mongo.matches filter y = false) pre ->
  Mongo.matches filter x = true ->
  Mongo.set_fields fields x = Ok x' ->
  Mongo.update_first filter fields (pre ++ x :: post)
  = Ok (Some (pre ++ x' :: post,
              negb (Mongo.value_eqb (VDict x') (VDict x)))).
Proof.
  intros Hpre Hx Hset.
  induction Hpre as [| y pre Hy Hpre IH]; cbn [app Mongo.update_first].
  - rewrite Hx, Hset. reflexivity.
  - rewrite Hy, IH. reflexivity.
Qed.


Lemma float_same_refl a : Mongo.float_same a a = true.
Proof.
  destruct a as [s | s | | s m e]; simpl; try reflexivity;
    rewrite ?Bool.eqb_reflx, ?Pos.eqb_refl, ?Z.eqb_refl; reflexivity.
Qed.

Lemma list_eqb_refl (A : Type) (eq : A -> A -> bool) (l : list A) :
  Forall (fun x => eq x x = true) l -> Mongo.list_eqb eq l l = true.
Proof.
  induction 1 as [| x l Hx Hl IH]; simpl; [reflexivity |].
  now rewrite Hx, IH.
Qed.

Lemma value_eqb_refl a : Mongo.value_eqb a a = true.
Proof.
  induction a as [| x | x | x | x | x | l IH | d IH] using value_ind;
    simpl; try reflexivity.
  - apply Bool.eqb_reflx.
  - apply Z.eqb_refl.
  - apply float_same_refl.
  - apply String.eqb_refl.
  - apply N.eqb_refl.
  - apply list_eqb_refl. exact IH.
  - apply list_eqb_refl. eapply Forall_impl; [| exact IH].
    intros [k v] Hv. simpl in *. now rewrite String.eqb_refl, Hv.
Qed.

Lemma dict_setitem_twice k v (d : dict) :
  dict_setitem k v (dict_setitem k v d) = dict_setitem k v d.
Proof.
  induction d as [| [k0 v0] d IH]; simpl.
  - now rewrite String.eqb_refl.
  - destruct (String.eqb k k0) eqn:E; simpl.
    + now rewrite String.eqb_refl.
    + now rewrite E, IH.
Qed.

Lemma storable_encodes v :
  storable v = true -> Mongo.encode_error v = None.
Proof.
  induction v as [| b | z | f | s | n | l IH | d IH] using value_ind;
    intro H; try reflexivity.
  - simpl in *. now rewrite H.
  - cbn [Mongo.encode_error]. apply first_error_none.
    simpl in H. rewrite forallb_forall in H.
    rewrite Forall_forall in *. intros x Hx. auto.
  - cbn [Mongo.encode_error]. apply first_error_none.
    simpl in H. rewrite forallb_forall in H.
    rewrite Forall_forall in *. intros [k x] Hx. cbn [fst snd].
    specialize (H _ Hx). cbn [fst snd] in H.
    apply andb_true_iff in H. destruct H as [Hk Hs].
    destruct (simple_field_path k Hk) as [_ [_ ->]].
    apply (IH _ Hx). exact Hs.
Qed.

Lemma single_update_sent id k v :
  has_char "000" k = false -> Mongo.encode_error v = None ->
  Mongo.request_error [[("id_telegram", VStr id)];
                       [("$set", VDict [(data_key k, v)])]] = None.
Proof.
  intros Hk Hv. unfold Mongo.request_error.
  cbn [Mongo.first_error Mongo.encode_error fst snd].
  change (has_char "000" "id_telegram") with false.
  change (has_char "000" "$set") with false.
  change (has_char "000" (data_key k)) with (has_char "000" k).
  cbv iota. rewrite Hk, Hv. reflexivity.
Qed.

Lemma update_single_field_run st name id k v pre n d post :
  valid_collection_name name = true ->
  simple_field k = true ->
  Mongo.encode_error v = None ->
  Mongo.documents st name
  = pre ++ [("_id", VObjectId n); ("id_telegram", VStr id);
            ("data", VDict d)] :: post ->
  Forall (fun doc => Mongo.matches [("id_telegram", VStr id)] doc = false)
         pre ->
  update_data_in_collection st name id [(k, v)]
  = if negb (Mongo.value_eqb
               (VDict [("_id", VObjectId n); ("id_telegram", VStr id);
                       ("data", VDict (dict_setitem k v d))])
               (VDict [("_id", VObjectId n); ("id_telegram", VStr id);
                       ("data", VDict d)]))
    then (Mongo.set_documents st name
            (pre ++ [("_id", VObjectId n); ("id_telegram", VStr id);
                     ("data", VDict (dict_setitem k v d))] :: post),
          Ok updated_message)
    else (st, Ok not_found_message).
Proof.
  intros Hname Hk Hv Hdocs Hpre.
  destruct (simple_field_path k Hk) as [Hsplit [Hplainname Hzero]].
  unfold update_data_in_collection, Mongo.update_one, Mongo.apply_update.
  change (update_fields_of [(k, v)]) with [(data_key k, v)]. cbv zeta.
  rewrite Hname.
  match goal with
  | |- context [Mongo.request_error ?x] =>
      replace (Mongo.request_error x) with (@None exn)
        by (symmetry; apply single_update_sent; assumption)
  end.
  unfold Mongo.read_update.
  change (String.eqb "$set" "$set") with true. cbv iota.
  cbn [map fst]. rewrite split_dots_data_key, Hsplit.
  unfold Mongo.valid_path. cbn [forallb Mongo.no_collision].
  rewrite Hplainname.
  change (Mongo.plain_name "data") with true. cbn [andb].
  change (forallb _ [("id_telegram", VStr id)]) with true. cbv iota.
  rewrite Hdocs.
  rewrite (@update_first_split [("id_telegram", VStr id)] [(data_key k, v)]
             pre _ [("_id", VObjectId n); ("id_telegram", VStr id);
                    ("data", VDict (dict_setitem k v d))] post).
  - destruct (negb _); reflexivity.
  - exact Hpre.
  - rewrite matches_id by reflexivity. unfold has_id. cbn.
    apply String.eqb_refl.
  - cbn [Mongo.set_fields]. rewrite split_dots_data_key, Hsplit.
    reflexivity.
Qed.

Lemma no_id_no_match id pre :
  Forall (fun doc => plain_id doc = true) pre ->
  Forall (fun doc => has_id id doc = false) pre ->
  Forall (fun doc => Mongo.matches [("id_telegram", VStr id)] doc = false) pre.
Proof.
  intros Hplain Hpre.
  induction Hpre as [| y pre Hy Hpre IH]; [constructor |].
  inversion Hplain; subst. constructor; [| apply IH; assumption].
  rewrite matches_id by assumption. exact Hy.
Qed.

Lemma update_single_field_documents st name id k v :
  holds_telegram_records st = true ->
  valid_collection_name name = true ->
  count_id st name id <> 0%nat ->
  simple_field k = true ->
  Mongo.encode_error v = None ->
  exists pre n d post,
    Mongo.documents st name
    = pre ++ [("_id", VObjectId n); ("id_telegram", VStr id);
              ("data", VDict d)] :: post /\
    wf_value (VDict d) = true /\
    Forall (fun doc => has_id id doc = false) pre /\
    Mongo.documents (fst (update_data_in_collection st name id [(k, v)]))
      name
    = pre ++ [("_id", VObjectId n); ("id_telegram", VStr id);
              ("data", VDict (dict_setitem k v d))] :: post.
Proof.
  intros Hst Hname Hcount Hk Hv.
  pose proof (@documents_are_records st name Hst) as Hrec.
  pose proof (@documents_plain st name Hst) as Hplain.
  destruct (@first_match_split _ (has_id id) (Mongo.documents st name))
    as [pre [x [post [Hdocs [Hx Hpre]]]]].
  { intro E. apply Hcount. unfold count_id. now rewrite E. }
  rewrite Hdocs in Hrec, Hplain.
  apply Forall_app in Hrec. destruct Hrec as [_ Hrec].
  inversion Hrec as [| x0 l0 Hxrec _]; subst x0 l0.
  apply telegram_record_shape in Hxrec.
  destruct Hxrec as [n [s [d [-> Hwf]]]].
  assert (s = id) as -> by (unfold has_id in Hx; cbn in Hx;
                            now apply String.eqb_eq in Hx).
  exists pre, n, d, post. split; [exact Hdocs |]. split; [exact Hwf |].
  split; [exact Hpre |].
  apply Forall_app in Hplain. destruct Hplain as [Hplain _].
  rewrite (@update_single_field_run st name id k v pre n d post
             Hname Hk Hv Hdocs (@no_id_no_match _ _ Hplain Hpre)).
  destruct (negb _) eqn:Ech; cbn [fst].
  - apply documents_set_same.
  - apply negb_false_iff in Ech. apply value_eqb_eq in Ech.
    injection Ech as Ech. rewrite Ech. exact Hdocs.
Qed.



(** ** The update endpoint, twice *)

(** X21.  Sending the same update twice: on a store of telegram records and
    for a collection name, for a record that exists, one simple field and a
    storable value, the second call changes nothing in the store and is
    answered "not found", because the first call left nothing to modify. *)
Theorem update_twice
    (st : Mongo.state) (collection_name id_teleg field : string) (v : value) :
  holds_telegram_records st = true ->
  valid_collection_name collection_name = true ->
  count_id st collection_name id_teleg <> 0%nat ->
  simple_field field = true ->
  storable v = true ->
  update_data_in_collection
    (fst (update_data_in_collection st collection_name id_teleg
            [(field, v)]))
    collection_name id_teleg [(field, v)]
  = (fst (update_data_in_collection st collection_name id_teleg
            [(field, v)]),
     Ok not_found_message).
Proof.
  intros Hst Hname Hcount Hk Hv. apply storable_encodes in Hv.
  destruct (@update_single_field_documents st collection_name id_teleg
              field v Hst Hname Hcount Hk Hv)
    as [pre [n [d [post [Hdocs [_ [Hpre Hdocs']]]]]]].
  pose proof (@documents_plain st collection_name Hst) as Hplain.
  rewrite Hdocs in Hplain. apply Forall_app in Hplain.
  destruct Hplain as [Hplain _].
  rewrite (@update_single_field_run _ collection_name id_teleg field v
             pre n (dict_setitem field v d) post Hname Hk Hv Hdocs'
             (@no_id_no_match _ _ Hplain Hpre)).
  rewrite dict_setitem_twice, value_eqb_refl. reflexivity.
Qed.

(** An instance: the hour of station 34504 set to 21, twice. *)
Lemma update_twice_witness :
  snd (update_data_in_collection sample_store "ua" "3450420249118"
         [("hour", VInt 21)]) = Ok updated_message /\
  snd (update_data_in_collection
         (fst (update_data_in_collection sample_store "ua" "3450420249118"
                 [("hour", VInt 21)]))
         "ua" "3450420249118" [("hour", VInt 21)])
  = Ok not_found_message.
Proof.
  split; [reflexivity |].
  rewrite (@update_twice sample_store "ua" "3450420249118" "hour" (VInt 21)
             eq_refl eq_refl ltac:(discriminate) eq_refl eq_refl).
  reflexivity.
Defined.

(** ** The ingestion routine *)

Section IngestionFailure.
Variables store collection : Type.
Variable db_manager : DbManager store collection.
Variable country_code : string.
Variable count : nat.


End IngestionFailure.


